(** * Volume_Berekenaar: the volume take-off of nen2580_inhoud_excel.py

    A shallow embedding of the quantity resolver, the mesh volume
    estimator, the net and gross volume computations and the report
    writer of [nen2580_inhoud_excel.py], followed by the properties of
    the specification that were checked against it.

    Python floats are IEEE 754 binary64 numbers and are modelled by
    Rocq's primitive floats, which are the same numbers with the same
    rounding.  Exceptions are explicit: a computation that may raise
    returns [option] ([None] is "raised"), and a loop body that may
    return early, fall through or raise returns a [signal]. *)

From Stdlib Require Import ZArith List String Ascii Bool Lia.
From Stdlib Require Import PrimFloat FloatOps SpecFloat DecimalString.
Import ListNotations.

Set Implicit Arguments.
Set Warnings "-inexact-float".
Open Scope string_scope.
Open Scope Z_scope.
Open Scope list_scope.

(** ** Python builtins used by the script *)

Module Py.

(** A Python string is a sequence of code points; a string here holds
    their UTF-8 bytes. *)

(** [str.lower] on the ASCII range (the candidate names of the script are
    ASCII; bytes above 127 are kept). *)
Definition lower_ascii (c : ascii) : ascii :=
  let n := nat_of_ascii c in
  if (Nat.leb 65 n && Nat.leb n 90)%bool then ascii_of_nat (n + 32) else c.

Fixpoint lower (s : string) : string :=
  match s with
  | EmptyString => EmptyString
  | String c r => String (lower_ascii c) (lower r)
  end.

(** The number of bytes that follow the first byte of a code point. *)
Definition continuation_bytes (c : ascii) : nat :=
  let n := nat_of_ascii c in
  if Nat.ltb n 192 then 0 else if Nat.ltb n 224 then 1 else if Nat.ltb n 240 then 2 else 3.

(** The code points of a string, each as its bytes: [cur] is the code
    point being read and [pending] the number of its bytes still to
    come. *)
Fixpoint code_points_from (pending : nat) (cur : string) (s : string) : list string :=
  match s with
  | EmptyString =>
      match cur with
      | EmptyString => []
      | _ => [cur]
      end
  | String c r =>
      match pending with
      | S k => code_points_from k (cur ++ String c EmptyString)%string r
      | O =>
          match cur with
          | EmptyString => code_points_from (continuation_bytes c) (String c EmptyString) r
          | _ => cur :: code_points_from (continuation_bytes c) (String c EmptyString) r
          end
      end
  end.

Definition code_points (s : string) : list string := code_points_from 0 EmptyString s.

(** [ch.isspace()] for one code point: the ASCII white space (9 to 13,
    28 to 32) and U+0085, U+00A0, U+1680, U+2000 to U+200A, U+2028,
    U+2029, U+202F, U+205F and U+3000. *)
Definition is_space (ch : string) : bool :=
  match map nat_of_ascii (list_ascii_of_string ch) with
  | [n] => (Nat.eqb n 32 || (Nat.leb 9 n && Nat.leb n 13) || (Nat.leb 28 n && Nat.leb n 31))%bool
  | [194%nat; b] => (Nat.eqb b 133 || Nat.eqb b 160)%bool
  | [225%nat; 154%nat; 128%nat] => true
  | [226%nat; 128%nat; b] =>
      ((Nat.leb 128 b && Nat.leb b 138) || Nat.eqb b 168 || Nat.eqb b 169 || Nat.eqb b 175)%bool
  | [226%nat; 129%nat; 159%nat] => true
  | [227%nat; 128%nat; 128%nat] => true
  | _ => false
  end.

Fixpoint drop_while {A} (p : A -> bool) (l : list A) : list A :=
  match l with
  | [] => []
  | x :: r => if p x then drop_while p r else l
  end.

(** The code points of [s.strip()]: those of [s] without the white space
    at both ends. *)
Definition stripped (s : string) : list string :=
  rev (drop_while is_space (rev (drop_while is_space (code_points s)))).

Definition strip (s : string) : string := String.concat "" (stripped s).

(** [x in names] for a tuple of strings. *)
Definition str_in (x : string) (names : list string) : bool :=
  existsb (String.eqb x) names.

(** [s.replace(old, new)]: every occurrence, left to right, without
    overlap.  [skip] counts the characters of a match still to drop. *)
Fixpoint replace_from (old new : string) (skip : nat) (s : string) : string :=
  match s with
  | EmptyString => EmptyString
  | String c r =>
      match skip with
      | S k => replace_from old new k r
      | O =>
          if String.prefix old s
          then (new ++ replace_from old new (String.length old - 1) r)%string
          else String c (replace_from old new 0 r)
      end
  end.

(** [old] is never empty in the script. *)
Definition replace (s old new : string) : string := replace_from old new 0 s.

Fixpoint has_slash (p : string) : bool :=
  match p with
  | EmptyString => false
  | String c r => (Ascii.eqb c "/" || has_slash r)%bool
  end.

(** [os.path.basename] on POSIX paths: what follows the last slash. *)
Fixpoint basename (p : string) : string :=
  match p with
  | EmptyString => EmptyString
  | String c r =>
      if has_slash r then basename r
      else if Ascii.eqb c "/" then r else p
  end.

(** *** Floats *)

Open Scope float_scope.

(** [a > b] on floats; false when either side is NaN. *)
Definition gt (a b : float) : bool := (b <? a).

Definition round_half_even (num den : Z) : Z :=
  let q := (num / den)%Z in
  match (2 * (num mod den) ?= den)%Z with
  | Lt => q
  | Gt => (q + 1)%Z
  | Eq => if Z.even q then q else (q + 1)%Z
  end.

(** The integer nearest to [|x| * 1000], ties to even, computed on the
    exact value [m * 2^e] of the finite float [x]. *)
Definition thousandths (x : float) : Z :=
  match Prim2SF x with
  | S754_finite _ m e =>
      if (0 <=? e)%Z then (Zpos m * 2 ^ e * 1000)%Z
      else round_half_even (Zpos m * 1000) (2 ^ (- e))
  | _ => 0%Z
  end.

(** The float nearest to an integer, ties to even. *)
Definition of_Z (z : Z) : float := SF2Prim (binary_normalize prec emax z 0 false).

(** [round(x, 3)].  CPython rounds the exact binary value of [x] to three
    decimals, ties to even, and returns the float nearest to that
    decimal; NaN and the infinities are returned as they are.  From
    [2^43] on, a float is further than 0.0005 from its neighbours and is
    its own rounding; below, [|x| * 1000] rounds to an integer under
    [2^53], which [of_Z] represents exactly, and the division by 1000 is
    correctly rounded. *)
Definition round3 (x : float) : float :=
  if (is_nan x || is_infinity x)%bool then x
  else if (0x1p43 <=? abs x) then x
  else
    let r := of_Z (thousandths x) / 1000 in
    if get_sign x then - r else r.

(** What [float(...)] is applied to: the wrapped value of an IFC
    property (IfcReal, IfcInteger, IfcBoolean, IfcLabel, ...). *)
Inductive wrapped : Type :=
| WFloat (f : float)
| WInt (z : Z)
| WBool (b : bool)
| WText (s : string).

(** [float(w)]; [None] when it raises (ValueError on a text that is not
    a number, OverflowError on an integer out of range).  [parse] is
    [float] on strings. *)
Definition to_float (parse : string -> option float) (w : wrapped) : option float :=
  match w with
  | WFloat f => Some f
  | WInt z => let f := of_Z z in if is_infinity f then None else Some f
  | WBool b => Some (if b then 1 else 0)
  | WText s => parse s
  end.

(** [str(n)] for a non-negative integer. *)
Definition str_of_nat (n : nat) : string :=
  DecimalString.NilZero.string_of_uint (Nat.to_uint n).

End Py.

(** ** Control flow of a Python block *)

(** How a block of statements ends: with a [return], by reaching its end
    (a loop body then goes on with the next element, a function body
    yields Python's [None]), or with an exception. *)
Inductive signal (A : Type) : Type :=
| Returns (a : A)
| Falls
| Raises.

Arguments Falls {A}.
Arguments Raises {A}.

(** [s] followed by [k]. *)
Definition and_then {A} (s k : signal A) : signal A :=
  match s with
  | Falls => k
  | _ => s
  end.

Notation "s ;; k" := (and_then s k) (at level 61, right associativity).

(** [try: s / except Exception: pass]. *)
Definition try_pass {A} (s : signal A) : signal A :=
  match s with
  | Raises => Falls
  | _ => s
  end.

(** [try: s / except Exception: return a]. *)
Definition try_return {A} (s : signal A) (a : A) : signal A :=
  match s with
  | Raises => Returns a
  | _ => s
  end.

(** An expression that may raise ([None]), and what is done with its value. *)
Definition attempt {A B} (e : option B) (k : B -> signal A) : signal A :=
  match e with
  | Some b => k b
  | None => Raises
  end.

(** [x = f(...)] followed by [k x], for a function [f] whose value may be
    None: a body that reaches its end yields None, an exception goes on
    to the caller's handler. *)
Definition call {A B} (s : signal (option A)) (k : option A -> signal B) : signal B :=
  match s with
  | Returns r => k r
  | Falls => k None
  | Raises => Raises
  end.

(** [for x in l: body x], for a body that keeps no state of its own. *)
Fixpoint for_each {A B} (body : B -> signal A) (l : list B) : signal A :=
  match l with
  | [] => Falls
  | x :: r => body x ;; for_each body r
  end.

(** ** The model as the script sees it *)

Record Quantity : Type := {
  q_class : string;                    (* what [q.is_a(...)] is tested against *)
  q_Name : option string;              (* [None]: the attribute holds None *)
  VolumeValue : option float;          (* [None]: no such attribute, or None *)
  q_NominalValue : option Py.wrapped   (* [None]: no such attribute, or None *)
}.

Record Property : Type := {
  p_Name : option string;
  NominalValue : option Py.wrapped
}.

(** What [rel.RelatingPropertyDefinition] holds, by the two [is_a] tests
    of the script: a quantity set, a property set, or anything else (an
    entity of another class, which answers False to both). *)
Inductive PropertyDefinition : Type :=
| IfcElementQuantity (Quantities : list Quantity)
| IfcPropertySet (HasProperties : list Property)
| OtherDefinition.

Record Rel : Type := {
  RelatingPropertyDefinition : option PropertyDefinition
}.

(** The triangulation handed back by the geometry kernel: flat
    coordinate and index sequences. *)
Record Geometry : Type := {
  g_verts : list float;
  g_faces : option (list Z);
  g_simplices : option (list (list Z))
}.

Record Shape : Type := { geometry : Geometry }.

Record Entity : Type := {
  GlobalId : string;
  Name : option string;
  IsDefinedBy : option (list Rel);     (* [None]: no such attribute *)
  IsExternal : option bool
}.

Record Model : Type := { by_type : string -> list Entity }.

Definition vertex : Type := float * float * float.

(** The capabilities found at start-up, the libraries behind them, the
    two conversions of Python's [float] type that the script relies on,
    and the file system as the script finds it. *)
Record Env : Type := {
  HAS_GEOM : bool;
  HAS_TRIMESH : bool;
  HAS_SCIPY : bool;
  create_shape : Entity -> option Shape;                          (* [None]: raises *)
  trimesh_volume : list vertex -> list (list Z) -> option float;  (* [Trimesh(...).volume] *)
  hull_volume : list vertex -> option float;                      (* [ConvexHull(verts).volume] *)
  np_dot : vertex -> vertex -> float;                             (* [np.dot(a, b)] *)
  float_of_str : string -> option float;                          (* [float(s)] *)
  str_of_float : float -> string;                                 (* [str(x)] *)
  can_open : string -> bool                                       (* [open(path, 'w')] succeeds *)
}.

(** ** get_quantity_volume_from_obj *)

Section Resolver.

Variable env : Env.
Variable names : list string.

(** [x.Name in names or x.Name.lower() in [n.lower() for n in names]];
    on a name that is None the second test raises AttributeError. *)
Definition name_matches (name : option string) : option bool :=
  match name with
  | Some s => Some (Py.str_in s names || Py.str_in (Py.lower s) (map Py.lower names))
  | None => None
  end.

(** [float(x.NominalValue.wrappedValue)] *)
Definition nominal_float (nv : option Py.wrapped) : option float :=
  match nv with
  | Some w => Py.to_float (float_of_str env) w
  | None => None
  end.

Definition quantity_step (q : Quantity) : signal (option float) :=
  if String.eqb (q_class q) "IfcQuantityVolume" then
    attempt (name_matches (q_Name q)) (fun hit =>
      if hit then
        match VolumeValue q with
        | Some v => Returns (Some v)
        | None =>
            try_pass (attempt (nominal_float (q_NominalValue q))
                              (fun v => Returns (Some v)))
        end
      else Falls)
  else Falls.

Definition property_step (p : Property) : signal (option float) :=
  attempt (name_matches (p_Name p)) (fun hit =>
    if hit then
      try_pass (attempt (nominal_float (NominalValue p))
                        (fun v => Returns (Some v)))
    else Falls).

Definition rel_step (rel : Rel) : signal (option float) :=
  match RelatingPropertyDefinition rel with
  | None => Falls
  | Some (IfcElementQuantity qs) => for_each quantity_step qs
  | Some (IfcPropertySet ps) => for_each property_step ps
  | Some OtherDefinition => Falls
  end.

Definition get_quantity_volume_from_obj (obj : Entity) : signal (option float) :=
  try_return
    (match IsDefinedBy obj with
     | None | Some [] => Returns None
     | Some rels => for_each rel_step rels
     end)
    None
  ;; Returns None.

End Resolver.

(** ** shape_to_mesh *)

(** [reshape(-1, 3)] of a flat sequence; [None] when its length is not a
    multiple of three (numpy raises ValueError). *)
Fixpoint reshape3 {A} (l : list A) : option (list (A * A * A)) :=
  match l with
  | [] => Some []
  | a :: b :: c :: r => option_map (cons (a, b, c)) (reshape3 r)
  | _ => None
  end.

Definition row3 {A} (t : A * A * A) : list A :=
  let '(a, b, c) := t in [a; b; c].

(** [np.array(rows, dtype=np.int64)] needs rows of one length. *)
Definition rectangular (rows : list (list Z)) : bool :=
  match rows with
  | [] => true
  | r :: rest => forallb (fun r' => Nat.eqb (List.length r') (List.length r)) rest
  end.

(** [np.arange(n)] *)
Definition arange (n : nat) : list Z := map Z.of_nat (List.seq 0 n).

Definition empty_mesh : list vertex * list (list Z) := ([], []).

Definition shape_to_mesh (shape : Shape) : list vertex * list (list Z) :=
  let geom := geometry shape in
  match reshape3 (g_verts geom) with
  | None => empty_mesh
  | Some verts =>
      match g_faces geom with
      | Some fl =>
          match reshape3 fl with
          | Some faces => (verts, map row3 faces)
          | None => empty_mesh
          end
      | None =>
          match g_simplices geom with
          | Some rows => if rectangular rows then (verts, rows) else empty_mesh
          | None =>
              match reshape3 (arange (List.length verts)) with
              | Some faces => (verts, map row3 faces)
              | None => empty_mesh
              end
          end
      end
  end.

(** ** volume_from_mesh *)

Section Numpy.

Open Scope float_scope.

(** [verts[i]]: a negative index counts from the end, an index out of
    range raises IndexError. *)
Definition vertex_at (verts : list vertex) (i : Z) : option vertex :=
  let n := Z.of_nat (List.length verts) in
  if ((0 <=? i) && (i <? n))%Z%bool then nth_error verts (Z.to_nat i)
  else if ((- n <=? i) && (i <? 0))%Z%bool then nth_error verts (Z.to_nat (n + i))
  else None.

Definition cross (b c : vertex) : vertex :=
  let '(b0, b1, b2) := b in
  let '(c0, c1, c2) := c in
  (b1 * c2 - b2 * c1, b2 * c0 - b0 * c2, b0 * c1 - b1 * c0).

(** The loop of the signed-volume tier, from the running sum [v].  What
    [np.dot] returns is left to the library: it may add the three
    products in any order and with fused operations. *)
Fixpoint signed_sum (env : Env) (verts : list vertex) (faces : list (list Z)) (v : float)
  : option float :=
  match faces with
  | [] => Some v
  | f :: rest =>
      match nth_error f 0, nth_error f 1, nth_error f 2 with
      | Some i, Some j, Some k =>
          match vertex_at verts i, vertex_at verts j, vertex_at verts k with
          | Some a, Some b, Some c =>
              signed_sum env verts rest (v + np_dot env a (cross b c) / 6)
          | _, _, _ => None
          end
      | _, _, _ => None
      end
  end.

(** numpy's [min] and [max] hand a NaN on. *)
Definition np_min (a b : float) : float :=
  if is_nan a then a else if is_nan b then b else if b <? a then b else a.

Definition np_max (a b : float) : float :=
  if is_nan a then a else if is_nan b then b else if a <? b then b else a.

Definition lift2 (f : float -> float -> float) (a b : vertex) : vertex :=
  let '(a0, a1, a2) := a in
  let '(b0, b1, b2) := b in
  (f a0 b0, f a1 b1, f a2 b2).

(** [np.prod(verts.max(axis=0) - verts.min(axis=0))]; the reductions
    raise ValueError on an array without rows. *)
Definition bbox_volume (verts : list vertex) : option float :=
  match verts with
  | [] => None
  | v0 :: r =>
      let mins := fold_left (lift2 np_min) r v0 in
      let maxs := fold_left (lift2 np_max) r v0 in
      let '(d0, d1, d2) := lift2 PrimFloat.sub maxs mins in
      Some (d0 * d1 * d2)
  end.

(** The three tiers, given what each computation yields ([None]: it
    raised). *)
Definition volume_tiers (no_mesh has_trimesh : bool)
    (mesh_volume signed bbox : option float) : signal float :=
  (if no_mesh then Returns 0 else Falls) ;;
  (if has_trimesh then
     try_pass (attempt mesh_volume (fun vol =>
                 if Py.gt vol 0 then Returns vol else Falls))
   else Falls) ;;
  try_pass (attempt signed (fun v =>
              let v := abs v in
              if Py.gt v 0 then Returns v else Falls)) ;;
  try_return (attempt bbox (fun b => Returns b)) 0.

Definition volume_from_mesh (env : Env) (verts : list vertex) (faces : list (list Z))
  : signal float :=
  volume_tiers (Nat.eqb (List.length verts) 0 || Nat.eqb (List.length faces) 0)
               (HAS_TRIMESH env)
               (trimesh_volume env verts faces)
               (signed_sum env verts faces 0)
               (bbox_volume verts).

End Numpy.

(** ** compute_net_volume_spaces *)

Record Row : Type := {
  IfcType : string;
  Naam : string;
  r_GlobalId : string;
  Netto_m3 : float;
  Methode : string
}.

Section Volumes.

Variable env : Env.

Open Scope float_scope.

(** [(sp.Name or "").strip() or sp.GlobalId] *)
Definition display_name (sp : Entity) : string :=
  match Py.strip (match Name sp with Some n => n | None => "" end) with
  | EmptyString => GlobalId sp
  | s => s
  end.

(** The [try] block that tessellates a space, with its handler: the
    values of [vol] and [method] after it.  [vol] would be None had
    [volume_from_mesh] ended without a [return]. *)
Definition tessellated_volume (sp : Entity) : option float * string :=
  match create_shape env sp with
  | None => (Some 0, "Unavail")
  | Some shape =>
      let '(v, f) := shape_to_mesh shape in
      if (Nat.ltb 0 (List.length v) && Nat.ltb 0 (List.length f))%bool then
        match volume_from_mesh env v f with
        | Returns vol => (Some vol, "Geometry(mesh)")
        | Falls => (None, "Geometry(mesh)")
        | Raises => (Some 0, "Unavail")
        end
      else (Some 0, "Unavail")
  end.

(** [vol] and [method] of one space when line 163 is reached; [None]
    when the quantity look-up raised. *)
Definition space_volume (sp : Entity) : option (option float * string) :=
  match get_quantity_volume_from_obj env ["NetVolume"; "Volume"] sp with
  | Raises => None
  | Returns (Some vol) => Some (Some vol, "Quantity(Net/Volume)")
  | Returns None | Falls =>
      if HAS_GEOM env then Some (tessellated_volume sp)
      else Some (Some 0, "Unavail")
  end.

Definition space_row (sp : Entity) (vol : float) (method : string) : Row :=
  {| IfcType := "IfcSpace";
     Naam := display_name sp;
     r_GlobalId := GlobalId sp;
     Netto_m3 := Py.round3 vol;
     Methode := method |}.

(** The loop over the spaces, from the running [net_total] and [rows];
    [net_total += vol] raises TypeError on a [vol] that is None. *)
Fixpoint net_loop (spaces : list Entity) (net_total : float) (rows : list Row)
  : signal (float * list Row) :=
  match spaces with
  | [] => Returns (net_total, rows)
  | sp :: rest =>
      match space_volume sp with
      | Some (Some vol, method) =>
          net_loop rest (net_total + vol) (rows ++ [space_row sp vol method])
      | Some (None, _) | None => Raises
      end
  end.

Definition compute_net_volume_spaces (model : Model) : signal (float * list Row) :=
  net_loop (by_type model "IfcSpace") 0 [].

(** ** collect_building_vertices *)

Definition add (verts_all : list (list vertex)) (e : Entity) : list (list vertex) :=
  match create_shape env e with
  | None => verts_all
  | Some sh =>
      let '(v, _) := shape_to_mesh sh in
      if Nat.ltb 0 (List.length v) then verts_all ++ [v] else verts_all
  end.

(** [is_ext in (True, None)] *)
Definition taken_as_external (w : Entity) : bool :=
  match IsExternal w with
  | Some false => false
  | _ => true
  end.

Definition collect_building_vertices (model : Model) : list vertex :=
  if negb (HAS_GEOM env) then []
  else
    let walls :=
      filter taken_as_external (by_type model "IfcWallStandardCase")
      ++ filter taken_as_external (by_type model "IfcWall") in
    List.concat (fold_left add
              (walls ++ by_type model "IfcSlab" ++ by_type model "IfcRoof") []).

(** ** compute_gross_volume *)

Definition gross_names : list string := ["GrossVolume"; "BrutoInhoud"; "Volume"].

Definition building_step (b : Entity) : signal (float * string) :=
  call (get_quantity_volume_from_obj env gross_names b) (fun q =>
    match q with
    | Some q => Returns (q, "IfcBuilding:GrossVolume")
    | None => Falls
    end).

(** The loop over the storeys, from the running [gross_sum] and [had];
    [None] when a look-up raised. *)
Fixpoint storeys_loop (storeys : list Entity) (gross_sum : float) (had : bool)
  : option (float * bool) :=
  match storeys with
  | [] => Some (gross_sum, had)
  | st :: rest =>
      match get_quantity_volume_from_obj env gross_names st with
      | Raises => None
      | Returns (Some q) => storeys_loop rest (gross_sum + q) true
      | Returns None | Falls => storeys_loop rest gross_sum had
      end
  end.

(** Lines 214 to 225: the tiers that work on the collected vertices. *)
Definition envelope_tiers (verts : list vertex) : signal (float * string) :=
  (if Nat.ltb 0 (List.length verts) then
     (if HAS_SCIPY env then
        try_pass (attempt (hull_volume env verts) (fun vol =>
                    if Py.gt vol 0 then Returns (vol, "ConvexHull(external)")
                    else Falls))
      else Falls) ;;
     attempt (bbox_volume verts) (fun b => Returns (b, "BoundingBox(external)"))
   else Falls) ;;
  Returns (0, "None").

Definition compute_gross_volume (model : Model) : signal (float * string) :=
  for_each building_step (by_type model "IfcBuilding") ;;
  attempt (storeys_loop (by_type model "IfcBuildingStorey") 0 false)
          (fun '(gross_sum, had) =>
             if (had && Py.gt gross_sum 0)%bool
             then Returns (gross_sum, "Σ Storey:GrossVolume")
             else Falls) ;;
  envelope_tiers (collect_building_vertices model).

End Volumes.

(** ** main: the two tables and their CSV text *)

Inductive Cell : Type :=
| CStr (s : string)
| CFloat (x : float)
| CInt (n : nat).

(** A file opened with ['w'] and what [csv.DictWriter] was given for it:
    the header first, then the rows. *)
Record Written : Type := {
  path : string;
  table : list (list Cell)
}.

(** How a run ends, with the files written until then in their order:
    at its end, or by an exception. *)
Inductive Run : Type :=
| Done (written : list Written)
| Raised (written : list Written).

Section Report.

Variable env : Env.

Definition dquote : ascii := ascii_of_nat 34.
Definition cr : ascii := ascii_of_nat 13.
Definition lf : ascii := ascii_of_nat 10.

(** The characters for which the writer quotes a field (excel dialect,
    QUOTE_MINIMAL). *)
Definition special (c : ascii) : bool :=
  (Ascii.eqb c "," || Ascii.eqb c dquote || Ascii.eqb c cr || Ascii.eqb c lf)%bool.

Fixpoint has_special (s : string) : bool :=
  match s with
  | EmptyString => false
  | String c r => (special c || has_special r)%bool
  end.

Fixpoint double_quotes (s : string) : string :=
  match s with
  | EmptyString => EmptyString
  | String c r =>
      if Ascii.eqb c dquote then String c (String c (double_quotes r))
      else String c (double_quotes r)
  end.

Definition csv_field (s : string) : string :=
  if has_special s
  then String dquote (double_quotes s ++ String dquote EmptyString)%string
  else s.

Definition cell_text (c : Cell) : string :=
  match c with
  | CStr s => s
  | CFloat x => str_of_float env x
  | CInt n => Py.str_of_nat n
  end.

Definition csv_line (cells : list Cell) : string :=
  (String.concat "," (map (fun c => csv_field (cell_text c)) cells)
   ++ String cr (String lf EmptyString))%string.

Definition csv_text (t : list (list Cell)) : string :=
  String.concat "" (map csv_line t).

(** What ends up in the file. *)
Definition file_text (w : Written) : string := csv_text (table w).

Definition summary_fieldnames : list string :=
  ["Datum"; "IFC_bestand"; "Bruto_inhoud_m3"; "Bruto_methode";
   "Netto_inhoud_m3 (Σ IfcSpace)"; "Ruimtes_geteld"].

Definition summary_record (now ifc : string) (gross_total : float)
    (gross_method : string) (net_total : float) (rows : list Row) : list Cell :=
  [CStr now; CStr (Py.basename ifc); CFloat (Py.round3 gross_total);
   CStr gross_method; CFloat (Py.round3 net_total); CInt (List.length rows)].

(** [rows[0].keys()] *)
Definition spaces_fieldnames : list string :=
  ["IfcType"; "Naam"; "GlobalId"; "Netto_m3"; "Methode"].

Definition row_cells (r : Row) : list Cell :=
  [CStr (IfcType r); CStr (Naam r); CStr (r_GlobalId r);
   CFloat (Netto_m3 r); CStr (Methode r)].

Definition summary_file (output : string) : string :=
  Py.replace output ".csv" "_summary.csv".

Definition spaces_file (output : string) : string :=
  Py.replace output ".csv" "_spaces.csv".

(** The [with open(...)] blocks one after the other: each file is opened
    and written in turn, and an [open] that fails raises, which ends the
    run with the files before it written. *)
Fixpoint write_files (ws : list Written) : Run :=
  match ws with
  | [] => Done []
  | w :: rest =>
      if can_open env (path w) then
        match write_files rest with
        | Done ws' => Done (w :: ws')
        | Raised ws' => Raised (w :: ws')
        end
      else Raised []
  end.

(** [main] from the opened model on: [now] is
    [datetime.now().strftime("%Y-%m-%d %H:%M")], [ifc] and [output] are
    the two command-line arguments, and [can_open] tells which paths
    [open] accepts once lines 235 to 237 have made the directory of
    [output].  Both volumes are computed before the first file is
    opened; the per-space file is opened only [if rows]. *)
Definition main (now ifc output : string) (model : Model) : Run :=
  match compute_net_volume_spaces env model with
  | Returns (net_total, rows) =>
      match compute_gross_volume env model with
      | Returns (gross_total, gross_method) =>
          write_files
            ({| path := summary_file output;
                table := [map CStr summary_fieldnames;
                          summary_record now ifc gross_total gross_method
                                         net_total rows] |}
             :: match rows with
                | [] => []
                | _ :: _ =>
                    [{| path := spaces_file output;
                        table := map CStr spaces_fieldnames :: map row_cells rows |}]
                end)
      | _ => Raised []
      end
  | _ => Raised []
  end.

(** The text of the files of a run that came to its end. *)
Definition texts (r : Run) : option (list (string * string)) :=
  match r with
  | Done ws => Some (map (fun w => (path w, file_text w)) ws)
  | Raised _ => None
  end.

End Report.

(** ** What the rows hold *)

Section Readings.

Variable env : Env.

Open Scope float_scope.

(** The volume and the method that [compute_net_volume_spaces] has for
    a space when it adds it to the total
    ([space_volume_total] shows them to be always there). *)
Definition vol_of (sp : Entity) : float :=
  match space_volume env sp with
  | Some (Some v, _) => v
  | _ => 0
  end.

Definition method_of (sp : Entity) : string :=
  match space_volume env sp with
  | Some (_, m) => m
  | None => ""
  end.

Definition row_of (sp : Entity) : Row := space_row sp (vol_of sp) (method_of sp).

(** The sum of the values recorded in the rows. *)
Definition sum_rows (rows : list Row) : float :=
  fold_left (fun acc r => acc + Netto_m3 r) rows 0.

(** Tessellation of the space succeeds with vertices and faces. *)
Definition usable_mesh (sp : Entity) : bool :=
  match create_shape env sp with
  | Some shape =>
      let '(v, f) := shape_to_mesh shape in
      (Nat.ltb 0 (List.length v) && Nat.ltb 0 (List.length f))%bool
  | None => false
  end.

(** The quantity look-up hands no value to [compute_net_volume_spaces]. *)
Definition quantity_missing (sp : Entity) : bool :=
  match get_quantity_volume_from_obj env ["NetVolume"; "Volume"] sp with
  | Returns (Some _) => false
  | _ => true
  end.

(** Neither a quantity nor a usable tessellation. *)
Definition resolution_fails (sp : Entity) : bool :=
  (quantity_missing sp && negb (HAS_GEOM env && usable_mesh sp))%bool.

(** The row of a space without a volume. *)
Definition failed_row (sp : Entity) : Row :=
  {| IfcType := "IfcSpace";
     Naam := display_name sp;
     r_GlobalId := GlobalId sp;
     Netto_m3 := 0;
     Methode := "Unavail" |}.

End Readings.


(** ** Sample models and run-time environments *)

Module Sample.

Open Scope float_scope.

(** [str] of a float with at most three decimals (what [round(_, 3)]
    returns), below [10^12]: the decimal itself, with one digit at
    least after the point. *)
Definition digits (n : Z) : string :=
  DecimalString.NilZero.string_of_uint (N.to_uint (Z.to_N n)).

Definition decimals (n : Z) : string :=
  if (n mod 100 =? 0)%Z then digits (n / 100)
  else if (n mod 10 =? 0)%Z then (digits (n / 100) ++ digits (n / 10 mod 10))%string
  else (digits (n / 100) ++ digits (n / 10 mod 10) ++ digits (n mod 10))%string.

Definition str_milli (x : float) : string :=
  if is_nan x then "nan"
  else if is_infinity x then (if get_sign x then "-inf" else "inf")
  else
    let n := Py.thousandths x in
    ((if get_sign x then "-" else "")
       ++ digits (n / 1000) ++ "." ++ decimals (n mod 1000))%string.

(** Lines of text, each ended as the CSV writer ends them. *)
Definition lines (l : list string) : string :=
  String.concat "" (map (fun s => (s ++ String cr (String lf EmptyString))%string) l).

(** A [np.dot] that adds the three products in their order, each
    operation rounded. *)
Definition dot_in_order (a b : vertex) : float :=
  let '(a0, a1, a2) := a in
  let '(b0, b1, b2) := b in
  a0 * b0 + a1 * b1 + a2 * b2.

Definition quantity (name : string) (v : float) : Quantity :=
  {| q_class := "IfcQuantityVolume"; q_Name := Some name;
     VolumeValue := Some v; q_NominalValue := None |}.


Definition property (name : string) (w : Py.wrapped) : Property :=
  {| p_Name := Some name; NominalValue := Some w |}.

Definition qto (qs : list Quantity) : Rel :=
  {| RelatingPropertyDefinition := Some (IfcElementQuantity qs) |}.

Definition pset (ps : list Property) : Rel :=
  {| RelatingPropertyDefinition := Some (IfcPropertySet ps) |}.

Definition entity (id : string) (rels : list Rel) : Entity :=
  {| GlobalId := id; Name := None; IsDefinedBy := Some rels; IsExternal := None |}.

Definition model_of (spaces buildings storeys walls slabs roofs : list Entity) : Model :=
  {| by_type := fun t =>
       if String.eqb t "IfcSpace" then spaces
       else if String.eqb t "IfcBuilding" then buildings
       else if String.eqb t "IfcBuildingStorey" then storeys
       else if String.eqb t "IfcWall" then walls
       else if String.eqb t "IfcSlab" then slabs
       else if String.eqb t "IfcRoof" then roofs
       else [] |}.

(** The unit cube, closed and wound outwards: 8 vertices, 12 triangles. *)
Definition cube_geometry : Geometry :=
  {| g_verts := [0; 0; 0;  1; 0; 0;  1; 1; 0;  0; 1; 0;
                 0; 0; 1;  1; 0; 1;  1; 1; 1;  0; 1; 1];
     g_faces := Some [0; 2; 1;  0; 3; 2;  4; 5; 6;  4; 6; 7;
                      0; 1; 5;  0; 5; 4;  1; 2; 6;  1; 6; 5;
                      2; 3; 7;  2; 7; 6;  3; 0; 4;  3; 4; 7]%Z;
     g_simplices := None |}.

(** Four coplanar corners of a slab, as two triangles. *)
Definition flat_geometry : Geometry :=
  {| g_verts := [0; 0; 0;  4; 0; 0;  4; 3; 0;  0; 3; 0];
     g_faces := Some [0; 1; 2;  0; 2; 3]%Z;
     g_simplices := None |}.

Definition no_geometry : Geometry :=
  {| g_verts := []; g_faces := Some []; g_simplices := None |}.

(** A geometry kernel that tessellates by identifier: a cube, a flat
    slab, an empty triangulation, and a failure for everything else. *)
Definition kernel (e : Entity) : option Shape :=
  if String.eqb (GlobalId e) "cube" then Some {| geometry := cube_geometry |}
  else if String.eqb (GlobalId e) "flat" then Some {| geometry := flat_geometry |}
  else if String.eqb (GlobalId e) "empty" then Some {| geometry := no_geometry |}
  else None.

(** No optional library at all.  None of the sample texts is a number,
    and every file can be opened. *)
Definition bare : Env :=
  {| HAS_GEOM := false; HAS_TRIMESH := false; HAS_SCIPY := false;
     create_shape := fun _ => None;
     trimesh_volume := fun _ _ => None;
     hull_volume := fun _ => None;
     np_dot := dot_in_order;
     float_of_str := fun _ => None;
     str_of_float := str_milli;
     can_open := fun _ => true |}.

(** The geometry kernel alone. *)
Definition with_geom : Env :=
  {| HAS_GEOM := true; HAS_TRIMESH := false; HAS_SCIPY := false;
     create_shape := kernel;
     trimesh_volume := fun _ _ => None;
     hull_volume := fun _ => None;
     np_dot := dot_in_order;
     float_of_str := fun _ => None;
     str_of_float := str_milli;
     can_open := fun _ => true |}.

(** The kernel and a hull library that fails on every input, as Qhull
    does on coplanar points. *)
Definition with_failing_hull : Env :=
  {| HAS_GEOM := true; HAS_TRIMESH := false; HAS_SCIPY := true;
     create_shape := kernel;
     trimesh_volume := fun _ _ => None;
     hull_volume := fun _ => None;
     np_dot := dot_in_order;
     float_of_str := fun _ => None;
     str_of_float := str_milli;
     can_open := fun _ => true |}.

(** The kernel and a hull library that finds the volume 1 (the cube's). *)
Definition with_hull : Env :=
  {| HAS_GEOM := true; HAS_TRIMESH := false; HAS_SCIPY := true;
     create_shape := kernel;
     trimesh_volume := fun _ _ => None;
     hull_volume := fun _ => Some 1;
     np_dot := dot_in_order;
     float_of_str := fun _ => None;
     str_of_float := str_milli;
     can_open := fun _ => true |}.

(** Three spaces of 0.0004 cubic metres each. *)
Definition small_spaces : Model :=
  model_of [entity "s1" [qto [quantity "NetVolume" 0.0004]];
            entity "s2" [qto [quantity "NetVolume" 0.0004]];
            entity "s3" [qto [quantity "NetVolume" 0.0004]]]
           [] [] [] [] [].

(** One space with a quantity, one with a cube for geometry, one whose
    tessellation is empty, one whose tessellation fails. *)
Definition mixed_spaces : Model :=
  model_of [entity "q" [qto [quantity "NetVolume" 12.5]];
            entity "cube" []; entity "empty" []; entity "broken" []]
           [] [] [] [] [].

(** A space whose tessellation fails, between two that resolve. *)
Definition broken_second : Model :=
  model_of [entity "q" [qto [quantity "NetVolume" 12.5]];
            entity "broken" []; entity "cube" []]
           [] [] [] [] [].

(** A building whose gross volume is given as 0, over a storey of 100. *)
Definition zero_building : Model :=
  model_of [] [entity "b" [qto [quantity "GrossVolume" 0]]]
           [entity "st" [qto [quantity "GrossVolume" 100]]] [] [] [].

(** No building quantity; a storey whose gross volume is given as 0. *)
Definition zero_storey : Model :=
  model_of [] [entity "b" []]
           [entity "st" [qto [quantity "GrossVolume" 0]]] [] [] [].

(** The storey of 100 alone. *)
Definition one_storey : Model :=
  model_of [] [] [entity "st" [qto [quantity "GrossVolume" 100]]] [] [] [].

(** No quantities; one flat slab for an envelope. *)
Definition flat_envelope : Model :=
  model_of [] [entity "b" []] [] [] [entity "flat" []] [].

(** No quantities; a cube for a wall. *)
Definition cube_envelope : Model :=
  model_of [] [entity "b" []] [] [entity "cube" []] [] [].

Definition nothing : Model := model_of [] [] [] [] [] [].



(** The lower-case spelling before the exact one. *)
Definition two_spellings : list Quantity :=
  [quantity "netvolume" 1; quantity "NetVolume" 2].

End Sample.


(** ** Readings used by the further properties *)

(** An index that [verts[i]] accepts. *)
Definition in_range (verts : list vertex) (i : Z) : bool :=
  ((- Z.of_nat (List.length verts) <=? i) && (i <? Z.of_nat (List.length verts)))%Z%bool.

(** A face whose first three entries exist and index vertices. *)
Definition valid_face (verts : list vertex) (f : list Z) : bool :=
  match nth_error f 0, nth_error f 1, nth_error f 2 with
  | Some i, Some j, Some k =>
      (in_range verts i && in_range verts j && in_range verts k)%bool
  | _, _, _ => false
  end.

Definition is_volume_quantity (q : Quantity) : bool :=
  String.eqb (q_class q) "IfcQuantityVolume".

(** The bounding box in the words of the design: along each axis the
    extent is the largest coordinate minus the smallest, and the volume
    is the product of the three extents. *)
Definition extent (coords : list float) : option float :=
  match coords with
  | [] => None
  | c :: r => Some (fold_left np_max r c - fold_left np_min r c)%float
  end.

Definition xs (verts : list vertex) : list float := map (fun v => fst (fst v)) verts.
Definition ys (verts : list vertex) : list float := map (fun v => snd (fst v)) verts.
Definition zs (verts : list vertex) : list float := map (fun v => snd v) verts.

Definition box_volume (verts : list vertex) : option float :=
  match extent (xs verts), extent (ys verts), extent (zs verts) with
  | Some dx, Some dy, Some dz => Some (dx * dy * dz)%float
  | _, _, _ => None
  end.

(** The vertices that tessellating one element gives. *)
Definition element_vertices (env : Env) (e : Entity) : list vertex :=
  match create_shape env e with
  | Some sh => fst (shape_to_mesh sh)
  | None => []
  end.

(** The elements that [collect_building_vertices] tessellates, in its
    order. *)
Definition envelope_elements (model : Model) : list Entity :=
  filter taken_as_external (by_type model "IfcWallStandardCase")
  ++ filter taken_as_external (by_type model "IfcWall")
  ++ by_type model "IfcSlab" ++ by_type model "IfcRoof".

(** The value that the look-up hands to its caller. *)
Definition found_quantity (env : Env) (names : list string) (e : Entity) : option float :=
  match get_quantity_volume_from_obj env names e with
  | Returns r => r
  | _ => None
  end.

(** The gross volumes found on the storeys, in their order. *)
Definition storey_values (env : Env) (storeys : list Entity) : list float :=
  flat_map (fun st => match found_quantity env gross_names st with
                      | Some q => [q]
                      | None => []
                      end) storeys.

(** [old] occurs in [s]. *)
Fixpoint occurs (old s : string) : bool :=
  match s with
  | EmptyString => String.prefix old EmptyString
  | String _ r => (String.prefix old s || occurs old r)%bool
  end.

Fixpoint has_char (c : ascii) (s : string) : bool :=
  match s with
  | EmptyString => false
  | String d r => (Ascii.eqb d c || has_char c r)%bool
  end.

(** What a path holds once the files were written one after the other,
    each opened with ['w']. *)
Definition final_table (ws : list Written) (p : string) : option (list (list Cell)) :=
  fold_left (fun acc w => if String.eqb (path w) p then Some (table w) else acc) ws None.

(** ** app.py *)

Module App.

Definition ALLOWED_EXTENSIONS : list string := ["ifc"].

(** [filename.rsplit('.', 1)[1]] of a name with a dot: what follows the
    last dot. *)
Fixpoint after_last_dot (s : string) : string :=
  match s with
  | EmptyString => EmptyString
  | String c r =>
      if has_char "." r then after_last_dot r
      else if Ascii.eqb c "." then r else s
  end.

Definition allowed_file (filename : string) : bool :=
  (has_char "." filename
   && Py.str_in (Py.lower (after_last_dot filename)) ALLOWED_EXTENSIONS)%bool.

(** The names that [index] makes from the identifier of an upload. *)
Definition result_filename (unique_id : string) : string :=
  (unique_id ++ "_result.xlsx")%string.

Definition result_path (unique_id : string) : string :=
  ("results/" ++ result_filename unique_id)%string.

Definition upload_path (unique_id filename : string) : string :=
  ("uploads/" ++ unique_id ++ "_" ++ filename)%string.

(** [fname.endswith(suffix)] *)
Definition endswith (fname suffix : string) : bool :=
  let n := String.length fname in
  let k := String.length suffix in
  (Nat.leb k n && String.eqb (String.substring (n - k) k fname) suffix)%bool.

(** The loop of [logs] over the listing of the result folder: the first
    name that starts with the task and ends in [.xlsx]. *)
Definition find_result (task_id : string) (listing : list string) : option string :=
  find (fun fname => (String.prefix task_id fname && endswith fname ".xlsx")%bool) listing.

End App.

(** ** Further sample data *)

Module Cases.

Open Scope float_scope.

(** trimesh and the hull library present, the geometry kernel absent. *)
Definition libraries_without_kernel : Env :=
  {| HAS_GEOM := false; HAS_TRIMESH := true; HAS_SCIPY := true;
     create_shape := Sample.kernel;
     trimesh_volume := fun _ _ => Some 5;
     hull_volume := fun _ => Some 7;
     np_dot := Sample.dot_in_order;
     float_of_str := fun _ => None;
     str_of_float := Sample.str_milli;
     can_open := fun _ => true |}.

(** A property set without a match, one with a volume, a quantity set
    with the net volume. *)
Definition height_rel : Rel := Sample.pset [Sample.property "Height" (Py.WFloat 3)].
Definition volume_rel : Rel := Sample.pset [Sample.property "Volume" (Py.WFloat 5)].
Definition net_volume_rel : Rel := Sample.qto [Sample.quantity "NetVolume" 10].

Definition three_relationships : Entity :=
  Sample.entity "sp" [height_rel; volume_rel; net_volume_rel].

(** Two storeys with a gross volume and one without, around a cube. *)
Definition two_storeys : Model :=
  Sample.model_of [] [Sample.entity "b" []]
    [Sample.entity "st1" [Sample.qto [Sample.quantity "GrossVolume" 100]];
     Sample.entity "st2" [];
     Sample.entity "st3" [Sample.qto [Sample.quantity "GrossVolume" 50]]]
    [Sample.entity "cube" []] [] [].

(** Four corners of a roof plane that rises along x: coplanar, in a
    box of 1 by 2 by 1. *)
Definition tilted_geometry : Geometry :=
  {| g_verts := [0; 0; 0;  1; 0; 1;  1; 2; 1;  0; 2; 0];
     g_faces := Some [0; 1; 2;  0; 2; 3]%Z;
     g_simplices := None |}.

Definition tilted_kernel (e : Entity) : option Shape :=
  if String.eqb (GlobalId e) "tilted" then Some {| geometry := tilted_geometry |}
  else Sample.kernel e.

(** The kernel and a hull library that fails on every input. *)
Definition failing_hull : Env :=
  {| HAS_GEOM := true; HAS_TRIMESH := false; HAS_SCIPY := true;
     create_shape := tilted_kernel;
     trimesh_volume := fun _ _ => None;
     hull_volume := fun _ => None;
     np_dot := Sample.dot_in_order;
     float_of_str := fun _ => None;
     str_of_float := Sample.str_milli;
     can_open := fun _ => true |}.

(** No quantities; one tilted roof for an envelope. *)
Definition tilted_envelope : Model :=
  Sample.model_of [] [Sample.entity "b" []] [] [] [] [Sample.entity "tilted" []].

(** A file system without directories: only a name without a slash can
    be opened. *)
Definition no_directories : Env :=
  {| HAS_GEOM := false; HAS_TRIMESH := false; HAS_SCIPY := false;
     create_shape := fun _ => None;
     trimesh_volume := fun _ _ => None;
     hull_volume := fun _ => None;
     np_dot := Sample.dot_in_order;
     float_of_str := fun _ => None;
     str_of_float := Sample.str_milli;
     can_open := fun p => negb (has_char "/" p) |}.

(** A name that is one no-break space (U+00A0). *)
Definition no_break_space : string :=
  String (ascii_of_nat 194) (String (ascii_of_nat 160) EmptyString).

End Cases.

Unset Implicit Arguments.

Example lower_ex : Py.lower "NetVolume" = "netvolume".
Proof. reflexivity. Qed.
Example strip_ex : Py.strip "  Hal 1 " = "Hal 1".
Proof. reflexivity. Qed.
Example strip_unicode_ex :
  Py.strip (Cases.no_break_space ++ "Hal" ++ Cases.no_break_space ++ "1 "
            ++ String (ascii_of_nat 227) (String (ascii_of_nat 128)
                 (String (ascii_of_nat 128) EmptyString)))%string
  = ("Hal" ++ Cases.no_break_space ++ "1")%string
  /\ Py.strip Cases.no_break_space = EmptyString
  /\ Py.code_points ("a" ++ Cases.no_break_space)%string = ["a"; Cases.no_break_space].
Proof. repeat split; reflexivity. Qed.
Example replace_ex : Py.replace "out/r.csv" ".csv" "_summary.csv" = "out/r_summary.csv".
Proof. reflexivity. Qed.
Example replace_ex2 : Py.replace "a.csv.csvx" ".csv" "_s.csv" = "a_s.csv_s.csvx".
Proof. reflexivity. Qed.
Example basename_ex : Py.basename "uploads/a/b.ifc" = "b.ifc".
Proof. reflexivity. Qed.
Example basename_ex2 : Py.basename "b.ifc" = "b.ifc".
Proof. reflexivity. Qed.
Example basename_ex3 : Py.basename "b/" = "".
Proof. reflexivity. Qed.
Example round3_small : Py.round3 0.0004%float = 0%float.
Proof. vm_compute. reflexivity. Qed.
Example round3_a : Py.round3 2.675%float = 2.675%float.
Proof. vm_compute. reflexivity. Qed.
Example round3_b : Py.round3 12.34567%float = 12.346%float.
Proof. vm_compute. reflexivity. Qed.
Example round3_c : Py.round3 (-0.0625)%float = (-0.062)%float.
Proof. vm_compute. reflexivity. Qed.
Example round3_d : Py.round3 1e300%float = 1e300%float.
Proof. vm_compute. reflexivity. Qed.
Example round3_e : Py.round3 0.0005%float = 0.001%float.
Proof. vm_compute. reflexivity. Qed.
Example round3_f : Py.round3 1.0005%float = 1%float.
Proof. vm_compute. reflexivity. Qed.
Example of_Z_ex : Py.of_Z 12 = 12%float.
Proof. vm_compute. reflexivity. Qed.
Example str_of_nat_ex : Py.str_of_nat 0 = "0" /\ Py.str_of_nat 12 = "12".
Proof. split; reflexivity. Qed.
Example of_Z_negative : Py.of_Z (-5) = (-5)%float.
Proof. vm_compute. reflexivity. Qed.
Example round3_negative_zero : Py.round3 (-0.0004)%float = (-0)%float.
Proof. vm_compute. reflexivity. Qed.
Example to_float_overflow :
  Py.to_float (fun _ => None) (Py.WInt (10 ^ 400)) = None
  /\ Py.to_float (fun _ => None) (Py.WInt 7) = Some 7%float
  /\ Py.to_float (fun _ => None) (Py.WBool true) = Some 1%float.
Proof. vm_compute. repeat split; reflexivity. Qed.

(** ** The functions on the sample models *)

Example cube_mesh_volume :
  let '(v, f) := shape_to_mesh {| geometry := Sample.cube_geometry |} in
  volume_from_mesh Sample.bare v f = Returns 0x1.fffffffffffffp-1%float
  /\ bbox_volume v = Some 1%float.
Proof. vm_compute. split; reflexivity. Qed.

Example empty_mesh_volume : volume_from_mesh Sample.bare [] [] = Returns 0%float.
Proof. reflexivity. Qed.

Example net_volume_resolved :
  get_quantity_volume_from_obj Sample.bare ["NetVolume"; "Volume"]
    (Sample.entity "sp" [Sample.qto [Sample.quantity "NetVolume" 12.5]])
  = Returns (Some 12.5%float).
Proof. reflexivity. Qed.

Example mixed_spaces_rows :
  compute_net_volume_spaces Sample.with_geom Sample.mixed_spaces
  = Returns (13.5%float,
             [ {| IfcType := "IfcSpace"; Naam := "q"; r_GlobalId := "q";
                  Netto_m3 := 12.5; Methode := "Quantity(Net/Volume)" |};
               {| IfcType := "IfcSpace"; Naam := "cube"; r_GlobalId := "cube";
                  Netto_m3 := 1; Methode := "Geometry(mesh)" |};
               {| IfcType := "IfcSpace"; Naam := "empty"; r_GlobalId := "empty";
                  Netto_m3 := 0; Methode := "Unavail" |};
               {| IfcType := "IfcSpace"; Naam := "broken"; r_GlobalId := "broken";
                  Netto_m3 := 0; Methode := "Unavail" |} ]).
Proof. vm_compute. reflexivity. Qed.

Example no_data_gross :
  compute_gross_volume Sample.bare Sample.nothing = Returns (0%float, "None").
Proof. reflexivity. Qed.

Example str_milli_ex :
  map Sample.str_milli [0; 12.5; 12.346; 0.02; 0.005; 100; -0.062]%float
  = ["0.0"; "12.5"; "12.346"; "0.02"; "0.005"; "100.0"; "-0.062"].
Proof. vm_compute. reflexivity. Qed.

(** ** Every function returns *)

Lemma and_then_returns {A} (a : A) (k : signal A) : Returns a ;; k = Returns a.
Proof. reflexivity. Qed.

Lemma and_then_falls {A} (k : signal A) : Falls ;; k = k.
Proof. reflexivity. Qed.

Lemma and_then_assoc {A} (s k l : signal A) : (s ;; k) ;; l = s ;; (k ;; l).
Proof. destruct s; reflexivity. Qed.

Lemma for_each_app {A B} (body : B -> signal A) (l1 l2 : list B) :
  for_each body (l1 ++ l2) = for_each body l1 ;; for_each body l2.
Proof.
  induction l1 as [|x l1 IH]; simpl.
  - reflexivity.
  - rewrite IH. symmetry. apply and_then_assoc.
Qed.

Lemma for_each_falls {A B} (body : B -> signal A) (l : list B) :
  (forall x, In x l -> body x = Falls) -> for_each body l = Falls.
Proof.
  induction l as [|x l IH]; intros H; simpl.
  - reflexivity.
  - rewrite (H x (or_introl eq_refl)). simpl. apply IH.
    intros y Hy. apply H. now right.
Qed.

(** No exception leaves the quantity look-up, and it never ends without
    a [return]. *)
Lemma get_quantity_returns env names obj :
  exists r, get_quantity_volume_from_obj env names obj = Returns r.
Proof.
  unfold get_quantity_volume_from_obj.
  destruct (IsDefinedBy obj) as [[|rel rels]|]; simpl; eauto.
  destruct (rel_step env names rel ;; for_each (rel_step env names) rels);
    simpl; eauto.
Qed.

Lemma volume_tiers_returns no_mesh has_trimesh mesh_volume signed bbox :
  exists v, volume_tiers no_mesh has_trimesh mesh_volume signed bbox = Returns v.
Proof.
  unfold volume_tiers.
  destruct no_mesh; simpl; eauto.
  assert (Hbbox : exists v, try_return (attempt bbox (fun b => Returns b)) 0%float
                            = Returns v).
  { destruct bbox; simpl; eauto. }
  assert (Hsigned : exists v,
             try_pass (attempt signed (fun v =>
                         if Py.gt (abs v) 0 then Returns (abs v) else Falls)) ;;
             try_return (attempt bbox (fun b => Returns b)) 0%float
             = Returns v).
  { destruct signed as [v|]; simpl; [|exact Hbbox].
    destruct (Py.gt (abs v) 0); simpl; eauto. }
  destruct has_trimesh; simpl; [|exact Hsigned].
  destruct mesh_volume as [vol|]; simpl; [|exact Hsigned].
  destruct (Py.gt vol 0); simpl; eauto.
Qed.

Lemma volume_from_mesh_returns env verts faces :
  exists v, volume_from_mesh env verts faces = Returns v.
Proof. apply volume_tiers_returns. Qed.

Lemma tessellated_volume_some env sp :
  exists v m, tessellated_volume env sp = (Some v, m).
Proof.
  unfold tessellated_volume.
  destruct (create_shape env sp) as [shape|]; [|eauto].
  destruct (shape_to_mesh shape) as [v f].
  destruct (Nat.ltb 0 (List.length v) && Nat.ltb 0 (List.length f))%bool; [|eauto].
  destruct (volume_from_mesh_returns env v f) as [x Hx]. rewrite Hx. eauto.
Qed.

Lemma space_volume_total env sp :
  space_volume env sp = Some (Some (vol_of env sp), method_of env sp).
Proof.
  unfold vol_of, method_of.
  assert (H : exists v m, space_volume env sp = Some (Some v, m)).
  { unfold space_volume.
    destruct (get_quantity_returns env ["NetVolume"; "Volume"] sp) as [r Hr].
    rewrite Hr. destruct r as [vol|]; [eauto|].
    destruct (HAS_GEOM env); [|eauto].
    destruct (tessellated_volume_some env sp) as (v & m & Hv). rewrite Hv. eauto. }
  destruct H as (v & m & H). rewrite H. reflexivity.
Qed.

(** The loop adds the volume of each space to the total and one row per
    space to the rows. *)
Lemma net_loop_spec env spaces net_total rows :
  net_loop env spaces net_total rows
  = Returns (fold_left PrimFloat.add (map (vol_of env) spaces) net_total,
             rows ++ map (row_of env) spaces).
Proof.
  revert net_total rows.
  induction spaces as [|sp rest IH]; intros net_total rows; simpl.
  - now rewrite app_nil_r.
  - rewrite space_volume_total, IH, <- app_assoc. reflexivity.
Qed.

Lemma compute_net_volume_spaces_spec env model :
  compute_net_volume_spaces env model
  = Returns (fold_left PrimFloat.add (map (vol_of env) (by_type model "IfcSpace")) 0%float,
             map (row_of env) (by_type model "IfcSpace")).
Proof. unfold compute_net_volume_spaces. now rewrite net_loop_spec. Qed.

(** ** The net volume of the spaces *)

Lemma round3_zero : Py.round3 0 = 0%float.
Proof. vm_compute. reflexivity. Qed.

Lemma quantity_missing_true env sp :
  quantity_missing env sp = true ->
  get_quantity_volume_from_obj env ["NetVolume"; "Volume"] sp = Returns None.
Proof.
  unfold quantity_missing.
  destruct (get_quantity_returns env ["NetVolume"; "Volume"] sp) as [[v|] Hr];
    rewrite Hr; [discriminate | reflexivity].
Qed.

Lemma space_volume_missing env sp :
  quantity_missing env sp = true ->
  space_volume env sp
  = if HAS_GEOM env then Some (tessellated_volume env sp) else Some (Some 0%float, "Unavail").
Proof.
  intros H. unfold space_volume. now rewrite (quantity_missing_true _ _ H).
Qed.

Lemma tessellated_volume_unusable env sp :
  usable_mesh env sp = false -> tessellated_volume env sp = (Some 0%float, "Unavail").
Proof.
  unfold usable_mesh, tessellated_volume.
  destruct (create_shape env sp) as [shape|]; [|reflexivity].
  destruct (shape_to_mesh shape) as [v f]. now intros ->.
Qed.

Lemma tessellated_volume_usable env sp :
  usable_mesh env sp = true ->
  exists shape v f x,
    create_shape env sp = Some shape /\ shape_to_mesh shape = (v, f)
    /\ volume_from_mesh env v f = Returns x
    /\ tessellated_volume env sp = (Some x, "Geometry(mesh)").
Proof.
  unfold usable_mesh, tessellated_volume.
  destruct (create_shape env sp) as [shape|]; [|discriminate].
  destruct (shape_to_mesh shape) as [v f] eqn:Hm. intros ->.
  destruct (volume_from_mesh_returns env v f) as [x Hx]. rewrite Hx.
  exists shape, v, f, x. auto.
Qed.

Lemma failed_row_of env sp :
  resolution_fails env sp = true -> row_of env sp = failed_row sp.
Proof.
  unfold resolution_fails. intros H.
  apply andb_true_iff in H. destruct H as [Hq Hg].
  apply negb_true_iff in Hg.
  assert (Hs : space_volume env sp = Some (Some 0%float, "Unavail")).
  { rewrite (space_volume_missing _ _ Hq).
    destruct (HAS_GEOM env); [|reflexivity].
    simpl in Hg. now rewrite (tessellated_volume_unusable _ _ Hg). }
  unfold row_of, vol_of, method_of, failed_row, space_row. rewrite Hs.
  now rewrite round3_zero.
Qed.

(** C1 (as amended): for every model the aggregator returns, with one row
    per space in the order of the spaces; a space without a quantity and
    without a usable tessellation has the row with value 0.0 and method
    Unavail; the net total is the sum of the volumes of the spaces as they
    were resolved, and each row records its volume rounded to three
    decimals. *)
Theorem net_rows_and_unrounded_total env model :
  let spaces := by_type model "IfcSpace" in
  exists total rows,
    compute_net_volume_spaces env model = Returns (total, rows)
    /\ List.length rows = List.length spaces
    /\ map r_GlobalId rows = map GlobalId spaces
    /\ rows = map (fun sp => if resolution_fails env sp then failed_row sp
                             else row_of env sp) spaces
    /\ total = fold_left PrimFloat.add (map (vol_of env) spaces) 0%float
    /\ map Netto_m3 rows = map (fun sp => Py.round3 (vol_of env sp)) spaces.
Proof.
  intros spaces.
  exists (fold_left PrimFloat.add (map (vol_of env) spaces) 0%float),
         (map (row_of env) spaces).
  split; [apply compute_net_volume_spaces_spec|].
  split; [apply length_map|].
  split; [now rewrite map_map|].
  split.
  - apply map_ext. intros sp.
    destruct (resolution_fails env sp) eqn:Hf; [|reflexivity].
    now apply failed_row_of.
  - split; [reflexivity|]. now rewrite map_map.
Qed.

(** C1, as stated, fails: three spaces of 0.0004 cubic metres have rows
    that all record 0.0, while the total is 0.0012 (0.001 once rounded for
    the summary). *)
Lemma net_total_is_not_the_sum_of_the_rows :
  exists total rows,
    compute_net_volume_spaces Sample.bare Sample.small_spaces = Returns (total, rows)
    /\ List.length rows = 3%nat
    /\ sum_rows rows = 0%float
    /\ total = 0x1.3a92a30553262p-10%float
    /\ Py.round3 total = 0.001%float
    /\ total <> sum_rows rows
    /\ Py.round3 total <> sum_rows rows.
Proof.
  eexists. eexists.
  split; [vm_compute; reflexivity|].
  split; [reflexivity|].
  split; [vm_compute; reflexivity|].
  split; [vm_compute; reflexivity|].
  split; [vm_compute; reflexivity|].
  split; intros H;
    apply (f_equal (fun x => PrimFloat.eqb x 0)) in H; vm_compute in H;
    discriminate H.
Qed.

Lemma row_of_in_rows env model sp :
  In sp (by_type model "IfcSpace") ->
  exists total rows,
    compute_net_volume_spaces env model = Returns (total, rows)
    /\ In (row_of env sp) rows.
Proof.
  intros Hin. rewrite compute_net_volume_spaces_spec.
  eexists. eexists. split; [reflexivity|]. now apply in_map.
Qed.

(** C2 (as amended): when the quantity look-up finds nothing for a space
    and tessellation is available, the row of the space is tagged
    Geometry(mesh) exactly when the tessellation succeeds with at least
    one vertex and one face, and its volume is then the mesh volume; when
    the mesh is empty or the tessellation fails, the row has value 0.0
    and method Unavail. *)
Theorem geometry_tag_needs_a_mesh env model sp :
  In sp (by_type model "IfcSpace") ->
  quantity_missing env sp = true ->
  HAS_GEOM env = true ->
  exists total rows,
    compute_net_volume_spaces env model = Returns (total, rows)
    /\ In (row_of env sp) rows
    /\ (Methode (row_of env sp) = "Geometry(mesh)" <-> usable_mesh env sp = true)
    /\ (usable_mesh env sp = true ->
        exists shape v f,
          create_shape env sp = Some shape /\ shape_to_mesh shape = (v, f)
          /\ volume_from_mesh env v f = Returns (vol_of env sp))
    /\ (usable_mesh env sp = false -> row_of env sp = failed_row sp).
Proof.
  intros Hin Hq Hg.
  destruct (row_of_in_rows env model sp Hin) as (total & rows & Hc & Hr).
  exists total, rows. split; [exact Hc|]. split; [exact Hr|].
  assert (Hs : space_volume env sp = Some (tessellated_volume env sp)).
  { rewrite (space_volume_missing _ _ Hq). now rewrite Hg. }
  destruct (usable_mesh env sp) eqn:Hu.
  - destruct (tessellated_volume_usable _ _ Hu) as (shape & v & f & x & H1 & H2 & H3 & H4).
    assert (Hv : vol_of env sp = x) by (unfold vol_of; now rewrite Hs, H4).
    assert (Hm : method_of env sp = "Geometry(mesh)")
      by (unfold method_of; now rewrite Hs, H4).
    split; [simpl; rewrite Hm; tauto|].
    split; [|discriminate].
    intros _. exists shape, v, f. rewrite Hv. auto.
  - assert (Hf : row_of env sp = failed_row sp).
    { apply failed_row_of. unfold resolution_fails.
      now rewrite Hq, Hg, Hu. }
    split.
    + rewrite Hf. simpl. split; discriminate.
    + split; [discriminate | auto].
Qed.

Lemma geometry_tag_needs_a_mesh_witness :
  In (Sample.entity "cube" []) (by_type Sample.mixed_spaces "IfcSpace")
  /\ quantity_missing Sample.with_geom (Sample.entity "cube" []) = true
  /\ HAS_GEOM Sample.with_geom = true
  /\ exists total rows,
       compute_net_volume_spaces Sample.with_geom Sample.mixed_spaces
       = Returns (total, rows)
       /\ In (row_of Sample.with_geom (Sample.entity "cube" [])) rows.
Proof.
  assert (Hin : In (Sample.entity "cube" []) (by_type Sample.mixed_spaces "IfcSpace"))
    by (simpl; auto).
  assert (Hq : quantity_missing Sample.with_geom (Sample.entity "cube" []) = true)
    by reflexivity.
  assert (Hg : HAS_GEOM Sample.with_geom = true) by reflexivity.
  split; [exact Hin|]. split; [exact Hq|]. split; [exact Hg|].
  destruct (geometry_tag_needs_a_mesh Sample.with_geom Sample.mixed_spaces
              (Sample.entity "cube" []) Hin Hq Hg)
    as (total & rows & Hc & Hr & _).
  exists total, rows. split; assumption.
Defined.

(** C2, as stated, fails: with the geometry kernel available, a space
    without quantities whose tessellation comes back empty gets the row
    with method Unavail, not Geometry(mesh). *)
Lemma empty_mesh_is_tagged_unavail :
  quantity_missing Sample.with_geom (Sample.entity "empty" []) = true
  /\ HAS_GEOM Sample.with_geom = true
  /\ option_map shape_to_mesh (create_shape Sample.with_geom (Sample.entity "empty" []))
     = Some ([], [])
  /\ compute_net_volume_spaces Sample.with_geom
       (Sample.model_of [Sample.entity "empty" []] [] [] [] [] [])
     = Returns (0%float,
                [{| IfcType := "IfcSpace"; Naam := "empty"; r_GlobalId := "empty";
                    Netto_m3 := 0; Methode := "Unavail" |}])
  /\ "Unavail" <> "Geometry(mesh)".
Proof.
  split; [reflexivity|]. split; [reflexivity|]. split; [reflexivity|].
  split; [vm_compute; reflexivity | discriminate].
Qed.

(** C9: when the quantity look-up finds nothing for a space and
    tessellating it raises, the row of that space has value 0.0 and
    method Unavail, and the spaces before and after it get their rows and
    their share of the total as they would without it. *)
Theorem failed_tessellation_is_unavail env model pre sp post :
  by_type model "IfcSpace" = pre ++ sp :: post ->
  quantity_missing env sp = true ->
  HAS_GEOM env = true ->
  create_shape env sp = None ->
  compute_net_volume_spaces env model
  = Returns (fold_left PrimFloat.add (map (vol_of env) post)
               (fold_left PrimFloat.add (map (vol_of env) pre) 0 + 0)%float,
             map (row_of env) pre ++ failed_row sp :: map (row_of env) post)
  /\ Netto_m3 (failed_row sp) = 0%float
  /\ Methode (failed_row sp) = "Unavail".
Proof.
  intros Hsp Hq Hg Hc.
  assert (Hu : usable_mesh env sp = false) by (unfold usable_mesh; now rewrite Hc).
  assert (Hf : row_of env sp = failed_row sp).
  { apply failed_row_of. unfold resolution_fails. now rewrite Hq, Hg, Hu. }
  assert (Hv : vol_of env sp = 0%float).
  { unfold vol_of. rewrite (space_volume_missing _ _ Hq), Hg.
    now rewrite (tessellated_volume_unusable _ _ Hu). }
  split; [|split; reflexivity].
  rewrite compute_net_volume_spaces_spec, Hsp.
  rewrite !map_app, fold_left_app. simpl. now rewrite Hf, Hv.
Qed.

Lemma failed_tessellation_is_unavail_witness :
  by_type Sample.broken_second "IfcSpace"
  = [Sample.entity "q" [Sample.qto [Sample.quantity "NetVolume" 12.5]]]
    ++ Sample.entity "broken" [] :: [Sample.entity "cube" []]
  /\ quantity_missing Sample.with_geom (Sample.entity "broken" []) = true
  /\ HAS_GEOM Sample.with_geom = true
  /\ create_shape Sample.with_geom (Sample.entity "broken" []) = None
  /\ exists total r1 r3,
       compute_net_volume_spaces Sample.with_geom Sample.broken_second
       = Returns (total, [r1] ++ failed_row (Sample.entity "broken" []) :: [r3]).
Proof.
  split; [reflexivity|]. split; [reflexivity|]. split; [reflexivity|].
  split; [reflexivity|].
  destruct (failed_tessellation_is_unavail Sample.with_geom Sample.broken_second
              [Sample.entity "q" [Sample.qto [Sample.quantity "NetVolume" 12.5]]]
              (Sample.entity "broken" []) [Sample.entity "cube" []]
              eq_refl eq_refl eq_refl eq_refl) as [H _].
  eexists. eexists. eexists. exact H.
Defined.

(** ** The gross volume *)

Lemma building_step_absent env b :
  get_quantity_volume_from_obj env gross_names b = Returns None ->
  building_step env b = Falls.
Proof. unfold building_step. now intros ->. Qed.

Lemma building_step_found env b q :
  get_quantity_volume_from_obj env gross_names b = Returns (Some q) ->
  building_step env b = Returns (q, "IfcBuilding:GrossVolume").
Proof. unfold building_step. now intros ->. Qed.

Lemma buildings_absent env bs :
  Forall (fun b => get_quantity_volume_from_obj env gross_names b = Returns None) bs ->
  for_each (building_step env) bs = Falls.
Proof.
  intros H. apply for_each_falls. intros b Hb.
  apply building_step_absent. rewrite Forall_forall in H. now apply H.
Qed.

Lemma storeys_loop_some env storeys gross_sum had :
  exists s h, storeys_loop env storeys gross_sum had = Some (s, h).
Proof.
  revert gross_sum had.
  induction storeys as [|st rest IH]; intros gross_sum had; simpl; eauto.
  destruct (get_quantity_returns env gross_names st) as [[q|] Hr]; rewrite Hr; apply IH.
Qed.

(** Once the two quantity tiers have found nothing, the result is that of
    the tiers on the envelope. *)
Lemma gross_volume_from_envelope env model s had :
  for_each (building_step env) (by_type model "IfcBuilding") = Falls ->
  storeys_loop env (by_type model "IfcBuildingStorey") 0 false = Some (s, had) ->
  (had && Py.gt s 0)%bool = false ->
  compute_gross_volume env model
  = envelope_tiers env (collect_building_vertices env model).
Proof.
  intros Hb Hs Hz. unfold compute_gross_volume. rewrite Hb, Hs. simpl.
  now rewrite Hz.
Qed.

Lemma bbox_volume_some v verts : exists b, bbox_volume (v :: verts) = Some b.
Proof.
  unfold bbox_volume.
  destruct (lift2 PrimFloat.sub (fold_left (lift2 np_max) verts v)
                  (fold_left (lift2 np_min) verts v)) as [[d0 d1] d2].
  eauto.
Qed.

Lemma envelope_hull env verts h :
  verts <> [] -> HAS_SCIPY env = true ->
  hull_volume env verts = Some h -> Py.gt h 0 = true ->
  envelope_tiers env verts = Returns (h, "ConvexHull(external)").
Proof.
  intros Hv Hs Hh Hp. unfold envelope_tiers.
  destruct verts as [|v verts]; [contradiction|].
  change (Nat.ltb 0 (List.length (v :: verts))) with true. cbv iota.
  rewrite Hs, Hh. cbn [attempt]. now rewrite Hp.
Qed.

Lemma envelope_bbox env verts :
  verts <> [] ->
  HAS_SCIPY env = false \/ hull_volume env verts = None
  \/ (exists h, hull_volume env verts = Some h /\ Py.gt h 0 = false) ->
  exists b, bbox_volume verts = Some b
            /\ envelope_tiers env verts = Returns (b, "BoundingBox(external)").
Proof.
  intros Hv H. unfold envelope_tiers.
  destruct verts as [|v verts]; [contradiction|].
  destruct (bbox_volume_some v verts) as [b Hb]. exists b. split; [exact Hb|].
  change (Nat.ltb 0 (List.length (v :: verts))) with true. cbv iota.
  rewrite Hb.
  destruct H as [Hs | [Hn | (h & Hh & Hz)]].
  - now rewrite Hs.
  - rewrite Hn. now destruct (HAS_SCIPY env).
  - rewrite Hh. cbn [attempt]. rewrite Hz. now destruct (HAS_SCIPY env).
Qed.

Lemma envelope_tiers_returns env verts :
  exists r, envelope_tiers env verts = Returns r.
Proof.
  destruct verts as [|v verts]; [unfold envelope_tiers; simpl; eauto|].
  assert (Hne : v :: verts <> []) by discriminate.
  assert (Hbbox : HAS_SCIPY env = false \/ hull_volume env (v :: verts) = None
                  \/ (exists h, hull_volume env (v :: verts) = Some h
                                 /\ Py.gt h 0 = false) ->
                  exists r, envelope_tiers env (v :: verts) = Returns r).
  { intros H. destruct (envelope_bbox env _ Hne H) as (b & _ & Hb).
    rewrite Hb. eauto. }
  destruct (HAS_SCIPY env) eqn:Hs; [|auto].
  destruct (hull_volume env (v :: verts)) as [h|] eqn:Hh; [|auto].
  destruct (Py.gt h 0) eqn:Hp; [|eauto 6].
  rewrite (envelope_hull env _ _ Hne Hs Hh Hp). eauto.
Qed.

Lemma for_each_building_step env bs :
  for_each (building_step env) bs = Falls
  \/ exists r, for_each (building_step env) bs = Returns r.
Proof.
  induction bs as [|b bs IH]; simpl; [now left|].
  destruct (get_quantity_returns env gross_names b) as [[q|] Hr].
  - right. rewrite (building_step_found _ _ _ Hr). simpl. eauto.
  - rewrite (building_step_absent _ _ Hr). exact IH.
Qed.

Lemma compute_gross_volume_returns env model :
  exists gross method, compute_gross_volume env model = Returns (gross, method).
Proof.
  unfold compute_gross_volume.
  destruct (for_each_building_step env (by_type model "IfcBuilding"))
    as [Hb | [[g m] Hb]]; rewrite Hb; simpl; [|eauto].
  destruct (storeys_loop_some env (by_type model "IfcBuildingStorey") 0%float false)
    as (s & h & Hs).
  rewrite Hs. simpl.
  destruct (h && Py.gt s 0)%bool; simpl; [eauto|].
  destruct (envelope_tiers_returns env (collect_building_vertices env model))
    as [[g m] Hr].
  rewrite Hr. eauto.
Qed.

Lemma fold_lift2 f r a b c :
  fold_left (lift2 f) r (a, b, c)
  = (fold_left f (xs r) a, fold_left f (ys r) b, fold_left f (zs r) c).
Proof.
  revert a b c. induction r as [|[[x y] z] r IH]; intros a b c; [reflexivity|].
  cbn [fold_left xs ys zs map fst snd lift2]. apply IH.
Qed.

(** The bounding box of the code, computed on the vertices as rows, is
    the box of the three extents. *)
Lemma bbox_volume_extents verts : bbox_volume verts = box_volume verts.
Proof.
  destruct verts as [|[[x0 y0] z0] r]; [reflexivity|].
  unfold bbox_volume, box_volume.
  cbn [xs ys zs map fst snd extent]. fold (xs r) (ys r) (zs r).
  now rewrite !fold_lift2.
Qed.

Lemma box_volume_extents verts b :
  box_volume verts = Some b ->
  exists dx dy dz,
    extent (xs verts) = Some dx /\ extent (ys verts) = Some dy
    /\ extent (zs verts) = Some dz /\ b = (dx * dy * dz)%float.
Proof.
  unfold box_volume.
  destruct (extent (xs verts)) as [dx|]; [|discriminate].
  destruct (extent (ys verts)) as [dy|]; [|discriminate].
  destruct (extent (zs verts)) as [dz|]; [|discriminate].
  intros H. inversion H. exists dx, dy, dz. auto.
Qed.

(** C3 (as amended): the first building that has a gross-volume quantity
    decides the result, tagged IfcBuilding:GrossVolume, whatever the
    value, 0 included; a zero result moves on to the next tier at the
    storey sum, at the convex hull, and at the first two tiers of the mesh
    volume estimator. *)
Theorem zero_advances_except_at_the_building env :
  (forall model pre b post q,
      by_type model "IfcBuilding" = pre ++ b :: post ->
      Forall (fun b' => get_quantity_volume_from_obj env gross_names b' = Returns None) pre ->
      get_quantity_volume_from_obj env gross_names b = Returns (Some q) ->
      compute_gross_volume env model = Returns (q, "IfcBuilding:GrossVolume"))
  /\ (forall model s had,
         Forall (fun b => get_quantity_volume_from_obj env gross_names b = Returns None)
                (by_type model "IfcBuilding") ->
         storeys_loop env (by_type model "IfcBuildingStorey") 0 false = Some (s, had) ->
         Py.gt s 0 = false ->
         compute_gross_volume env model
         = envelope_tiers env (collect_building_vertices env model))
  /\ (forall verts h,
         verts <> [] ->
         hull_volume env verts = Some h -> Py.gt h 0 = false ->
         exists b, bbox_volume verts = Some b
                   /\ envelope_tiers env verts = Returns (b, "BoundingBox(external)"))
  /\ (forall vol signed bbox,
         Py.gt vol 0 = false ->
         volume_tiers false true (Some vol) signed bbox
         = volume_tiers false false None signed bbox)
  /\ (forall has_trimesh v bbox,
         Py.gt (abs v) 0 = false ->
         volume_tiers false has_trimesh None (Some v) bbox
         = Returns (match bbox with Some b => b | None => 0%float end)).
Proof.
  repeat split.
  - intros model pre b post q Hb Hpre Hq.
    unfold compute_gross_volume.
    rewrite Hb, for_each_app, (buildings_absent _ _ Hpre). simpl.
    now rewrite (building_step_found _ _ _ Hq).
  - intros model s had Hb Hs Hz.
    apply (gross_volume_from_envelope env model _ _ (buildings_absent _ _ Hb) Hs).
    rewrite Hz. apply andb_false_r.
  - intros verts h Hv Hh Hz. apply envelope_bbox; eauto.
  - intros vol signed bbox Hz. unfold volume_tiers.
    cbn [and_then attempt try_pass]. now rewrite Hz.
  - intros has_trimesh v bbox Hz. unfold volume_tiers.
    destruct has_trimesh; cbn [and_then attempt try_pass]; rewrite Hz;
      destruct bbox; reflexivity.
Qed.

Lemma zero_advances_except_at_the_building_witness :
  (by_type Sample.zero_building "IfcBuilding"
   = [] ++ Sample.entity "b" [Sample.qto [Sample.quantity "GrossVolume" 0]] :: []
   /\ get_quantity_volume_from_obj Sample.bare gross_names
        (Sample.entity "b" [Sample.qto [Sample.quantity "GrossVolume" 0]])
      = Returns (Some 0%float)
   /\ compute_gross_volume Sample.bare Sample.zero_building
      = Returns (0%float, "IfcBuilding:GrossVolume"))
  /\ (storeys_loop Sample.bare (by_type Sample.zero_storey "IfcBuildingStorey") 0 false
      = Some (0%float, true)
      /\ Py.gt 0 0 = false
      /\ compute_gross_volume Sample.bare Sample.zero_storey
         = envelope_tiers Sample.bare
             (collect_building_vertices Sample.bare Sample.zero_storey)).
Proof.
  destruct (zero_advances_except_at_the_building Sample.bare) as (Ha & Hb & _).
  split.
  - split; [reflexivity|]. split; [reflexivity|].
    apply (Ha Sample.zero_building []
              (Sample.entity "b" [Sample.qto [Sample.quantity "GrossVolume" 0]]) []);
      [reflexivity | constructor | reflexivity].
  - split; [reflexivity|]. split; [reflexivity|].
    apply (Hb Sample.zero_storey 0%float true);
      [repeat constructor | reflexivity | reflexivity].
Defined.

(** C3, as stated, fails: a building whose gross-volume quantity is 0
    gives 0 tagged IfcBuilding:GrossVolume although its storey holds 100,
    which the storey tier returns when the building has no quantity. *)
Lemma zero_building_quantity_is_returned :
  compute_gross_volume Sample.bare Sample.zero_building
  = Returns (0%float, "IfcBuilding:GrossVolume")
  /\ by_type Sample.zero_building "IfcBuildingStorey"
     = by_type Sample.one_storey "IfcBuildingStorey"
  /\ compute_gross_volume Sample.bare Sample.one_storey
     = Returns (100%float, "Σ Storey:GrossVolume").
Proof. repeat split; vm_compute; reflexivity. Qed.

(** C6: once the two quantity tiers have found nothing and envelope
    vertices were collected, a hull of positive volume is returned tagged
    ConvexHull(external); a hull that cannot be built, or whose volume is
    not positive, gives the bounding-box volume of the vertices, the
    product of their extents along the three axes, tagged
    BoundingBox(external); and whatever is tagged ConvexHull(external) is
    positive. *)
Theorem hull_or_bounding_box env model s had verts :
  for_each (building_step env) (by_type model "IfcBuilding") = Falls ->
  storeys_loop env (by_type model "IfcBuildingStorey") 0 false = Some (s, had) ->
  (had && Py.gt s 0)%bool = false ->
  collect_building_vertices env model = verts ->
  verts <> [] ->
  (forall h, HAS_SCIPY env = true -> hull_volume env verts = Some h ->
             Py.gt h 0 = true ->
             compute_gross_volume env model = Returns (h, "ConvexHull(external)"))
  /\ (HAS_SCIPY env = false \/ hull_volume env verts = None
      \/ (exists h, hull_volume env verts = Some h /\ Py.gt h 0 = false) ->
      exists dx dy dz,
        extent (xs verts) = Some dx /\ extent (ys verts) = Some dy
        /\ extent (zs verts) = Some dz
        /\ compute_gross_volume env model
           = Returns ((dx * dy * dz)%float, "BoundingBox(external)"))
  /\ (forall x, compute_gross_volume env model = Returns (x, "ConvexHull(external)") ->
                Py.gt x 0 = true).
Proof.
  intros Hb Hs Hz Hc Hv.
  rewrite (gross_volume_from_envelope env model _ _ Hb Hs Hz), Hc.
  split; [|split].
  - intros h Hsc Hh Hp. now apply envelope_hull.
  - intros H. destruct (envelope_bbox env verts Hv H) as (b & Hbb & Hr).
    rewrite bbox_volume_extents in Hbb.
    destruct (box_volume_extents verts b Hbb) as (dx & dy & dz & Hx & Hy & Hz' & ->).
    exists dx, dy, dz. auto.
  - intros x Hx.
    destruct (HAS_SCIPY env) eqn:Hsc.
    + destruct (hull_volume env verts) as [h|] eqn:Hh.
      * destruct (Py.gt h 0) eqn:Hp.
        -- rewrite (envelope_hull env _ _ Hv Hsc Hh Hp) in Hx. now inversion Hx; subst.
        -- destruct (envelope_bbox env _ Hv) as (b & _ & Hbb); [eauto|].
           rewrite Hbb in Hx. discriminate Hx.
      * destruct (envelope_bbox env _ Hv) as (b & _ & Hbb); [auto|].
        rewrite Hbb in Hx. discriminate Hx.
    + destruct (envelope_bbox env _ Hv) as (b & _ & Hbb); [auto|].
      rewrite Hbb in Hx. discriminate Hx.
Qed.

Lemma hull_or_bounding_box_witness :
  (for_each (building_step Cases.failing_hull)
     (by_type Cases.tilted_envelope "IfcBuilding") = Falls
   /\ storeys_loop Cases.failing_hull
        (by_type Cases.tilted_envelope "IfcBuildingStorey") 0 false = Some (0%float, false)
   /\ collect_building_vertices Cases.failing_hull Cases.tilted_envelope
      = [(0, 0, 0); (1, 0, 1); (1, 2, 1); (0, 2, 0)]%float
   /\ hull_volume Cases.failing_hull
        [(0, 0, 0); (1, 0, 1); (1, 2, 1); (0, 2, 0)]%float = None
   /\ compute_gross_volume Cases.failing_hull Cases.tilted_envelope
      = Returns (2%float, "BoundingBox(external)"))
  /\ (collect_building_vertices Sample.with_hull Sample.cube_envelope <> []
      /\ Py.gt 1 0 = true
      /\ compute_gross_volume Sample.with_hull Sample.cube_envelope
         = Returns (1%float, "ConvexHull(external)")).
Proof.
  split.
  - split; [reflexivity|]. split; [reflexivity|]. split; [reflexivity|].
    split; [reflexivity|].
    destruct (hull_or_bounding_box Cases.failing_hull Cases.tilted_envelope
                0%float false
                [(0, 0, 0); (1, 0, 1); (1, 2, 1); (0, 2, 0)]%float
                eq_refl eq_refl eq_refl eq_refl ltac:(discriminate))
      as (_ & H & _).
    destruct H as (dx & dy & dz & Hx & Hy & Hz & Hr); [right; left; reflexivity|].
    vm_compute in Hx, Hy, Hz.
    injection Hx as <-. injection Hy as <-. injection Hz as <-.
    rewrite Hr. vm_compute. reflexivity.
  - split; [vm_compute; discriminate|]. split; [reflexivity|].
    destruct (hull_or_bounding_box Sample.with_hull Sample.cube_envelope
                0%float false
                (collect_building_vertices Sample.with_hull Sample.cube_envelope)
                eq_refl eq_refl eq_refl eq_refl ltac:(vm_compute; discriminate))
      as (H & _ & _).
    apply (H 1%float); reflexivity.
Defined.

(** ** The quantity look-up *)







Lemma str_in_lower s names :
  Py.str_in s names = true -> Py.str_in (Py.lower s) (map Py.lower names) = true.
Proof.
  unfold Py.str_in. induction names as [|n names IH]; simpl; [discriminate|].
  intros H. apply orb_true_iff in H. apply orb_true_iff.
  destruct H as [H | H].
  - left. apply String.eqb_eq in H. subst n. apply String.eqb_refl.
  - right. now apply IH.
Qed.

Lemma name_matches_lower names s :
  name_matches names (Some s) = Some (Py.str_in (Py.lower s) (map Py.lower names)).
Proof.
  unfold name_matches. f_equal.
  destruct (Py.str_in s names) eqn:E; [|reflexivity].
  simpl. symmetry. now apply str_in_lower.
Qed.




(** ** The mesh volume estimator *)

(** C8: the mesh volume estimator returns a value on every input and
    raises nothing; a first tier that raises leaves the result to the
    second and third tiers, a second tier that raises leaves it to the
    bounding box, and when the bounding box raises as well the result is
    0.0. *)
Theorem volume_from_mesh_is_total :
  (forall env verts faces, exists v, volume_from_mesh env verts faces = Returns v)
  /\ (forall no_mesh has_trimesh mesh_volume signed bbox,
         exists v, volume_tiers no_mesh has_trimesh mesh_volume signed bbox = Returns v)
  /\ (forall signed bbox,
         volume_tiers false true None signed bbox
         = volume_tiers false false None signed bbox)
  /\ (forall has_trimesh bbox,
         volume_tiers false has_trimesh None None bbox
         = Returns (match bbox with Some b => b | None => 0%float end))
  /\ (forall has_trimesh mesh_volume signed,
         volume_tiers false has_trimesh mesh_volume signed None = Returns 0%float
         \/ exists v, volume_tiers false has_trimesh mesh_volume signed None = Returns v
                      /\ Py.gt v 0 = true).
Proof.
  split; [exact volume_from_mesh_returns|].
  split; [exact volume_tiers_returns|].
  split; [reflexivity|].
  split; [intros [|] [b|]; reflexivity|].
  intros has_trimesh mesh_volume signed. unfold volume_tiers.
  assert (Hsigned :
            try_pass (attempt signed (fun v =>
                        if Py.gt (abs v) 0 then Returns (abs v) else Falls)) ;;
            try_return (attempt (@None float) (fun b => Returns b)) 0%float
            = Returns 0%float
            \/ exists v,
                try_pass (attempt signed (fun v =>
                            if Py.gt (abs v) 0 then Returns (abs v) else Falls)) ;;
                try_return (attempt (@None float) (fun b => Returns b)) 0%float
                = Returns v /\ Py.gt v 0 = true).
  { destruct signed as [v|]; cbn [attempt try_pass and_then]; [|now left].
    destruct (Py.gt (abs v) 0) eqn:Hp; cbn [try_pass and_then]; [right; eauto | now left]. }
  cbn [and_then].
  destruct has_trimesh; cbn [and_then]; [|exact Hsigned].
  destruct mesh_volume as [vol|]; cbn [attempt try_pass and_then]; [|exact Hsigned].
  destruct (Py.gt vol 0) eqn:Hp; cbn [try_pass and_then]; [right; eauto | exact Hsigned].
Qed.

(** ** The report *)

Lemma write_files_done env ws :
  forallb (fun w => can_open env (path w)) ws = true -> write_files env ws = Done ws.
Proof.
  induction ws as [|w ws IH]; [reflexivity|].
  cbn [forallb write_files]. intros H. apply andb_true_iff in H.
  destruct H as [Hw Hws]. now rewrite Hw, (IH Hws).
Qed.

Lemma main_tables env now ifc output model :
  exists gross method,
    compute_gross_volume env model = Returns (gross, method)
    /\ main env now ifc output model
       = write_files env
           ({| path := summary_file output;
               table := [map CStr summary_fieldnames;
                         summary_record now ifc gross method
                           (fold_left PrimFloat.add
                              (map (vol_of env) (by_type model "IfcSpace")) 0%float)
                           (map (row_of env) (by_type model "IfcSpace"))] |}
            :: match map (row_of env) (by_type model "IfcSpace") with
               | [] => []
               | _ :: _ =>
                   [{| path := spaces_file output;
                       table := map CStr spaces_fieldnames
                                :: map row_cells
                                     (map (row_of env) (by_type model "IfcSpace")) |}]
               end).
Proof.
  destruct (compute_gross_volume_returns env model) as (gross & method & Hg).
  exists gross, method. split; [exact Hg|].
  unfold main. now rewrite compute_net_volume_spaces_spec, Hg.
Qed.

(** C7 (as amended): on the same model, with the same arguments, the same
    libraries and the same file system, every run opens the same files
    in the same order and gives them the same text, but for the first
    field of the summary record, which holds the minute in which the run
    took place: the per-space output is the same in every run, and the
    summary output is the same for two runs within the same minute.
    With every file opened the run comes to its end with these files
    written; with a summary file that cannot be opened it writes
    nothing. *)
Theorem outputs_differ_in_the_date_only env ifc output model :
  exists record spaces_output,
    forall now,
      let summary :=
        {| path := summary_file output;
           table := [map CStr summary_fieldnames; CStr now :: record] |} in
      main env now ifc output model = write_files env (summary :: spaces_output)
      /\ map (file_text env) (summary :: spaces_output)
         = csv_text env [map CStr summary_fieldnames; CStr now :: record]
           :: map (file_text env) spaces_output
      /\ (forallb (fun w => can_open env (path w)) (summary :: spaces_output) = true ->
          main env now ifc output model = Done (summary :: spaces_output))
      /\ (can_open env (summary_file output) = false ->
          main env now ifc output model = Raised []).
Proof.
  destruct (main_tables env EmptyString ifc output model) as (gross & method & Hg & _).
  eexists. eexists. intros now summary.
  destruct (main_tables env now ifc output model) as (gross' & method' & Hg' & Hm).
  rewrite Hg in Hg'. inversion Hg'; subst gross' method'.
  assert (E : main env now ifc output model
              = write_files env (summary :: _)) by exact Hm.
  split; [exact E|]. split; [reflexivity|]. split.
  - intros H. rewrite E. now apply write_files_done.
  - intros H. rewrite E. cbn [write_files path summary]. now rewrite H.
Qed.

Lemma outputs_differ_in_the_date_only_witness :
  can_open Cases.no_directories (summary_file "x.csv/r.csv") = false
  /\ main Cases.no_directories "2024-05-01 10:00" "a.ifc" "x.csv/r.csv" Sample.mixed_spaces
     = Raised []
  /\ exists ws,
       main Sample.with_geom "2024-05-01 10:00" "uploads/a.ifc" "results/r.csv"
            Sample.mixed_spaces = Done ws
       /\ map path ws = ["results/r_summary.csv"; "results/r_spaces.csv"].
Proof.
  split; [reflexivity|]. split.
  - destruct (outputs_differ_in_the_date_only Cases.no_directories "a.ifc" "x.csv/r.csv"
                Sample.mixed_spaces) as (record & spaces_output & H).
    destruct (H "2024-05-01 10:00") as (_ & _ & _ & Hf). apply Hf. reflexivity.
  - destruct (outputs_differ_in_the_date_only Sample.with_geom "uploads/a.ifc"
                "results/r.csv" Sample.mixed_spaces) as (record & spaces_output & H).
    destruct (H "2024-05-01 10:00") as (_ & _ & Hd & _).
    assert (HD := Hd ltac:(apply forallb_forall; intros; reflexivity)).
    eexists. split; [exact HD|].
    apply (f_equal (fun r => match r with
                             | Done ws => map path ws
                             | Raised ws => map path ws
                             end)) in HD.
    vm_compute in HD. symmetry. exact HD.
Defined.

(** C7, as stated, fails: two runs on the same model, one minute apart,
    write summaries that differ in their date. *)
Lemma summaries_differ_a_minute_apart :
  option_map (map snd)
    (texts Sample.with_geom
       (main Sample.with_geom "2024-05-01 10:00" "uploads/a.ifc" "results/r.csv"
             Sample.mixed_spaces))
  = Some [Sample.lines
            ["Datum,IFC_bestand,Bruto_inhoud_m3,Bruto_methode,Netto_inhoud_m3 (Σ IfcSpace),Ruimtes_geteld";
             "2024-05-01 10:00,a.ifc,0.0,None,13.5,4"];
          Sample.lines
            ["IfcType,Naam,GlobalId,Netto_m3,Methode";
             "IfcSpace,q,q,12.5,Quantity(Net/Volume)";
             "IfcSpace,cube,cube,1.0,Geometry(mesh)";
             "IfcSpace,empty,empty,0.0,Unavail";
             "IfcSpace,broken,broken,0.0,Unavail"]]
  /\ option_map (map snd)
       (texts Sample.with_geom
          (main Sample.with_geom "2024-05-01 10:01" "uploads/a.ifc" "results/r.csv"
                Sample.mixed_spaces))
     = Some [Sample.lines
               ["Datum,IFC_bestand,Bruto_inhoud_m3,Bruto_methode,Netto_inhoud_m3 (Σ IfcSpace),Ruimtes_geteld";
                "2024-05-01 10:01,a.ifc,0.0,None,13.5,4"];
             Sample.lines
               ["IfcType,Naam,GlobalId,Netto_m3,Methode";
                "IfcSpace,q,q,12.5,Quantity(Net/Volume)";
                "IfcSpace,cube,cube,1.0,Geometry(mesh)";
                "IfcSpace,empty,empty,0.0,Unavail";
                "IfcSpace,broken,broken,0.0,Unavail"]]
  /\ texts Sample.with_geom
       (main Sample.with_geom "2024-05-01 10:00" "uploads/a.ifc" "results/r.csv"
             Sample.mixed_spaces)
     <> texts Sample.with_geom
          (main Sample.with_geom "2024-05-01 10:01" "uploads/a.ifc" "results/r.csv"
                Sample.mixed_spaces).
Proof.
  split; [vm_compute; reflexivity|].
  split; [vm_compute; reflexivity|].
  vm_compute. discriminate.
Qed.

(** C10: for a model without spaces, the run opens the summary file and no
    other: when it can be opened, the summary is written, with net total
    0.0 and space count 0, and nothing else; no file for the per-space
    table, not even one with a header. *)
Theorem no_spaces_no_table env now ifc output model :
  by_type model "IfcSpace" = [] ->
  exists gross method,
    compute_gross_volume env model = Returns (gross, method)
    /\ main env now ifc output model
       = if can_open env (summary_file output)
         then Done [{| path := summary_file output;
                       table := [map CStr summary_fieldnames;
                                 [CStr now; CStr (Py.basename ifc);
                                  CFloat (Py.round3 gross); CStr method;
                                  CFloat 0; CInt 0]] |}]
         else Raised [].
Proof.
  intros Hs.
  destruct (main_tables env now ifc output model) as (gross & method & Hg & Hm).
  exists gross, method. split; [exact Hg|].
  rewrite Hm, Hs. simpl map. cbv beta iota.
  unfold summary_record. simpl fold_left. simpl List.length.
  rewrite round3_zero. cbn [write_files path].
  now destruct (can_open env (summary_file output)).
Qed.

Lemma no_spaces_no_table_witness :
  by_type Sample.nothing "IfcSpace" = []
  /\ texts Sample.bare
       (main Sample.bare "2024-05-01 10:00" "uploads/a.ifc" "results/r.csv" Sample.nothing)
     = Some [("results/r_summary.csv",
              Sample.lines
                ["Datum,IFC_bestand,Bruto_inhoud_m3,Bruto_methode,Netto_inhoud_m3 (Σ IfcSpace),Ruimtes_geteld";
                 "2024-05-01 10:00,a.ifc,0.0,None,0.0,0"])].
Proof.
  split; [reflexivity|].
  destruct (no_spaces_no_table Sample.bare "2024-05-01 10:00" "uploads/a.ifc"
              "results/r.csv" Sample.nothing eq_refl)
    as (gross & method & Hg & Hm).
  rewrite Hm. vm_compute in Hg. inversion Hg; subst gross method.
  vm_compute. reflexivity.
Defined.

(** * Further properties *)

(** ** shape_to_mesh *)

Lemma list_ind3 {A} (P : list A -> Prop) :
  P [] -> (forall a, P [a]) -> (forall a b, P [a; b]) ->
  (forall a b c r, P r -> P (a :: b :: c :: r)) ->
  forall l, P l.
Proof.
  intros H0 H1 H2 H3.
  fix IH 1.
  intros [|a [|b [|c r]]]; [exact H0 | apply H1 | apply H2 | apply H3; apply IH].
Qed.

Lemma reshape3_flat {A} (l : list A) t :
  reshape3 l = Some t -> flat_map row3 t = l /\ List.length l = (3 * List.length t)%nat.
Proof.
  revert t. induction l as [| | |a b c r IH] using list_ind3; intros t H;
    simpl in H; try discriminate.
  - inversion H. now split.
  - destruct (reshape3 r) as [t'|]; [|discriminate].
    inversion H; subst t. destruct (IH t' eq_refl) as [Hf Hl].
    simpl. rewrite Hf, Hl. split; [reflexivity | lia].
Qed.

Lemma reshape3_none {A} (l : list A) :
  reshape3 l = None <-> (List.length l mod 3 <> 0)%nat.
Proof.
  induction l as [| | |a b c r IH] using list_ind3.
  - simpl. split; [discriminate | intros H; now contradict H].
  - simpl. split; [intros _; discriminate | reflexivity].
  - simpl. split; [intros _; discriminate | reflexivity].
  - change (List.length (a :: b :: c :: r)) with (3 + List.length r)%nat.
    replace (3 + List.length r)%nat with (List.length r + 1 * 3)%nat by lia.
    rewrite Nat.Div0.mod_add, <- IH.
    cbn [reshape3].
    destruct (reshape3 r); simpl; split; congruence.
Qed.

Lemma row3_length {A} (t : list (A * A * A)) :
  Forall (fun r => List.length r = 3%nat) (map row3 t).
Proof.
  apply Forall_forall. intros r Hr. apply in_map_iff in Hr.
  destruct Hr as ([[a b] c] & <- & _). reflexivity.
Qed.

Lemma concat_row3 {A} (t : list (A * A * A)) : List.concat (map row3 t) = flat_map row3 t.
Proof. symmetry. apply flat_map_concat_map. Qed.

Lemma reshape3_some {A} (l : list A) :
  (List.length l mod 3 = 0)%nat ->
  exists t, reshape3 l = Some t /\ flat_map row3 t = l
            /\ List.length t = (List.length l / 3)%nat.
Proof.
  intros H. destruct (reshape3 l) as [t|] eqn:E.
  - destruct (reshape3_flat _ _ E) as [Hf Hl]. exists t.
    split; [reflexivity|]. split; [exact Hf|].
    rewrite Hl, Nat.mul_comm. symmetry. now apply Nat.div_mul.
  - apply reshape3_none in E. contradiction.
Qed.

(** X1: [shape_to_mesh] cuts the flat sequences of the kernel in threes.
    With a coordinate sequence whose length is a multiple of three, and
    a [faces] sequence whose length is one too, the vertices, flattened,
    are the coordinates again, every face has three indices and the
    faces, flattened, are the indices again; without [faces], the rows
    of [simplices] are the faces when they have one length; without
    both, the faces are the numbers from 0 on, three by three, when the
    number of vertices is a multiple of three.  In every other case the
    mesh is empty. *)
Theorem shape_to_mesh_cuts_in_threes shape :
  let geom := geometry shape in
  let '(v, f) := shape_to_mesh shape in
  ((List.length (g_verts geom) mod 3 <> 0)%nat -> (v, f) = empty_mesh)
  /\ ((List.length (g_verts geom) mod 3 = 0)%nat ->
      match g_faces geom, g_simplices geom with
      | Some fl, _ =>
          ((List.length fl mod 3 <> 0)%nat -> (v, f) = empty_mesh)
          /\ ((List.length fl mod 3 = 0)%nat ->
              flat_map row3 v = g_verts geom /\ List.concat f = fl
              /\ Forall (fun r => List.length r = 3%nat) f)
      | None, Some rows =>
          (rectangular rows = false -> (v, f) = empty_mesh)
          /\ (rectangular rows = true -> flat_map row3 v = g_verts geom /\ f = rows)
      | None, None =>
          let n := (List.length (g_verts geom) / 3)%nat in
          ((n mod 3 <> 0)%nat -> (v, f) = empty_mesh)
          /\ ((n mod 3 = 0)%nat ->
              flat_map row3 v = g_verts geom /\ List.concat f = arange n
              /\ Forall (fun r => List.length r = 3%nat) f)
      end).
Proof.
  unfold shape_to_mesh. cbv zeta.
  destruct (reshape3 (g_verts (geometry shape))) as [verts|] eqn:Hv.
  - destruct (reshape3_flat _ _ Hv) as [Hflat Hlen].
    assert (Hn : (List.length (g_verts (geometry shape)) / 3)%nat = List.length verts).
    { rewrite Hlen, Nat.mul_comm. now apply Nat.div_mul. }
    assert (Hmod : ~ (List.length (g_verts (geometry shape)) mod 3 <> 0)%nat).
    { intros H. apply reshape3_none in H. congruence. }
    destruct (g_faces (geometry shape)) as [fl|].
    + destruct (reshape3 fl) as [faces|] eqn:Hfl.
      * destruct (reshape3_flat _ _ Hfl) as [Hfflat _].
        split; [intros H; contradiction|]. intros _. split.
        -- intros H. apply reshape3_none in H. congruence.
        -- intros _. rewrite concat_row3. auto using row3_length.
      * split; [reflexivity|]. intros _. split; [reflexivity|].
        intros H. apply reshape3_none in Hfl. contradiction.
    + destruct (g_simplices (geometry shape)) as [rows|].
      * destruct (rectangular rows).
        -- split; [intros H; contradiction|]. intros _.
           split; [discriminate | auto].
        -- split; [reflexivity|]. intros _. split; [reflexivity | discriminate].
      * rewrite Hn.
        destruct (reshape3 (arange (List.length verts))) as [faces|] eqn:Hfl.
        -- destruct (reshape3_flat _ _ Hfl) as [Hfflat _].
           split; [intros H; contradiction|]. intros _. split.
           ++ intros H. exfalso. apply H.
              assert (Hl : (List.length (arange (List.length verts)) mod 3 = 0)%nat).
              { destruct (Nat.eq_dec
                            (List.length (arange (List.length verts)) mod 3) 0)
                  as [E | E]; [exact E|].
                apply reshape3_none in E. congruence. }
              unfold arange in Hl. now rewrite length_map, length_seq in Hl.
           ++ intros _. rewrite concat_row3. auto using row3_length.
        -- split; [reflexivity|]. intros _. split; [reflexivity|].
           intros H. apply reshape3_none in Hfl.
           unfold arange in Hfl. rewrite length_map, length_seq in Hfl. contradiction.
  - split; [reflexivity|]. intros H. apply reshape3_none in Hv. contradiction.
Qed.

Lemma shape_to_mesh_cuts_in_threes_witness :
  (List.length (g_verts Sample.cube_geometry) mod 3 = 0)%nat
  /\ (List.length [0; 2; 1;  0; 3; 2;  4; 5; 6;  4; 6; 7;
                   0; 1; 5;  0; 5; 4;  1; 2; 6;  1; 6; 5;
                   2; 3; 7;  2; 7; 6;  3; 0; 4;  3; 4; 7]%Z mod 3 = 0)%nat
  /\ flat_map row3 (fst (shape_to_mesh {| geometry := Sample.cube_geometry |}))
     = g_verts Sample.cube_geometry
  /\ List.length (fst (shape_to_mesh {| geometry := Sample.cube_geometry |})) = 8%nat
  /\ List.length (snd (shape_to_mesh {| geometry := Sample.cube_geometry |})) = 12%nat.
Proof.
  assert (Hv : (List.length (g_verts Sample.cube_geometry) mod 3 = 0)%nat)
    by reflexivity.
  split; [exact Hv|]. split; [reflexivity|].
  pose proof (shape_to_mesh_cuts_in_threes {| geometry := Sample.cube_geometry |}) as H.
  cbv zeta in H.
  destruct (shape_to_mesh {| geometry := Sample.cube_geometry |}) as [v f] eqn:E.
  destruct H as [_ H]. specialize (H Hv).
  cbn [geometry Sample.cube_geometry g_faces g_simplices] in H.
  destruct H as [_ H]. destruct (H eq_refl) as (Hflat & _ & _).
  split; [exact Hflat|].
  vm_compute in E. inversion E. split; reflexivity.
Defined.

(** ** volume_from_mesh *)

Lemma vertex_at_in_range verts i :
  in_range verts i = true <-> exists a, vertex_at verts i = Some a.
Proof.
  unfold in_range, vertex_at.
  set (n := Z.of_nat (List.length verts)).
  destruct (Z.leb_spec 0 i) as [H0 | H0]; destruct (Z.ltb_spec i n) as [Hn | Hn];
    destruct (Z.leb_spec (- n) i) as [Hm | Hm]; destruct (Z.ltb_spec i 0) as [Hz | Hz];
    cbn [andb]; try lia.
  all: try (split; [discriminate | intros [a Ha]; discriminate Ha]).
  - split; [intros _ | reflexivity].
    destruct (nth_error verts (Z.to_nat i)) as [a|] eqn:E; [eauto|].
    apply nth_error_None in E. lia.
  - split; [intros _ | reflexivity].
    destruct (nth_error verts (Z.to_nat (n + i))) as [a|] eqn:E; [eauto|].
    apply nth_error_None in E. lia.
Qed.

Lemma valid_face_step verts f :
  valid_face verts f = true <->
  exists i j k a b c,
    nth_error f 0 = Some i /\ nth_error f 1 = Some j /\ nth_error f 2 = Some k
    /\ vertex_at verts i = Some a /\ vertex_at verts j = Some b
    /\ vertex_at verts k = Some c.
Proof.
  unfold valid_face. split.
  - destruct (nth_error f 0) as [i|]; [|discriminate].
    destruct (nth_error f 1) as [j|]; [|discriminate].
    destruct (nth_error f 2) as [k|]; [|discriminate].
    intros H. apply andb_true_iff in H. destruct H as [H Hk].
    apply andb_true_iff in H. destruct H as [Hi Hj].
    apply vertex_at_in_range in Hi, Hj, Hk.
    destruct Hi as [a Ha], Hj as [b Hb], Hk as [c Hc].
    exists i, j, k, a, b, c. auto 7.
  - intros (i & j & k & a & b & c & -> & -> & -> & Ha & Hb & Hc).
    rewrite !(proj2 (vertex_at_in_range verts _)); eauto.
Qed.

Lemma signed_sum_some_valid env verts faces v x :
  signed_sum env verts faces v = Some x -> forallb (valid_face verts) faces = true.
Proof.
  revert v. induction faces as [|f faces IH]; intros v; cbn [signed_sum forallb];
    [reflexivity|].
  intros Hx.
  destruct (nth_error f 0) as [i|] eqn:Ei; [|discriminate].
  destruct (nth_error f 1) as [j|] eqn:Ej; [|discriminate].
  destruct (nth_error f 2) as [k|] eqn:Ek; [|discriminate].
  destruct (vertex_at verts i) as [a|] eqn:Ea; [|discriminate].
  destruct (vertex_at verts j) as [b|] eqn:Eb; [|discriminate].
  destruct (vertex_at verts k) as [c|] eqn:Ec; [|discriminate].
  apply andb_true_iff. split.
  - apply valid_face_step. exists i, j, k, a, b, c. auto 7.
  - exact (IH _ Hx).
Qed.

(** X3: the loop of the signed-volume tier comes to its end exactly when
    every face has three indices that [verts] accepts; a face with fewer
    indices, or with an index out of range, makes the tier raise.
    Indices after the third are not looked at. *)
Theorem signed_sum_needs_valid_faces env verts faces v :
  (exists x, signed_sum env verts faces v = Some x)
  <-> forallb (valid_face verts) faces = true.
Proof.
  split.
  - intros [x Hx]. exact (signed_sum_some_valid env verts faces v x Hx).
  - revert v. induction faces as [|f faces IH]; intros v H; cbn [signed_sum].
    + eauto.
    + cbn [forallb] in H. apply andb_true_iff in H. destruct H as [Hf Hrest].
      apply valid_face_step in Hf.
      destruct Hf as (i & j & k & a & b & c & -> & -> & -> & -> & -> & ->).
      now apply IH.
Qed.

Lemma signed_sum_needs_valid_faces_witness :
  forallb (valid_face [(0, 0, 0); (1, 0, 0); (0, 1, 0); (0, 0, 1)]%float)
          [[1; 2; 3; 9]; [-4; -3; -2]] = true
  /\ exists x, signed_sum Sample.bare [(0, 0, 0); (1, 0, 0); (0, 1, 0); (0, 0, 1)]%float
                [[1; 2; 3; 9]; [-4; -3; -2]] 0 = Some x.
Proof.
  split; [reflexivity|].
  apply (proj2 (signed_sum_needs_valid_faces Sample.bare
                  [(0, 0, 0); (1, 0, 0); (0, 1, 0); (0, 0, 1)]%float
                  [[1; 2; 3; 9]; [-4; -3; -2]] 0%float)).
  reflexivity.
Defined.

Lemma no_mesh_false (verts : list vertex) (faces : list (list Z)) :
  verts <> [] -> faces <> [] ->
  (Nat.eqb (List.length verts) 0 || Nat.eqb (List.length faces) 0)%bool = false.
Proof. destruct verts, faces; intros; try contradiction; reflexivity. Qed.

Lemma bbox_volume_nonempty verts : verts <> [] -> exists b, bbox_volume verts = Some b.
Proof. destruct verts as [|v verts]; [contradiction | intros _; apply bbox_volume_some]. Qed.

(** X4: when a face of a mesh with vertices and faces has fewer than
    three indices or an index out of range, and the first tier gives
    nothing (no trimesh, or it raises), the estimate is the volume of the
    bounding box of the vertices. *)
Theorem invalid_face_gives_bounding_box env verts faces :
  verts <> [] -> faces <> [] ->
  forallb (valid_face verts) faces = false ->
  HAS_TRIMESH env = false \/ trimesh_volume env verts faces = None ->
  exists b, bbox_volume verts = Some b /\ volume_from_mesh env verts faces = Returns b.
Proof.
  intros Hv Hf Hbad Htri.
  destruct (bbox_volume_nonempty verts Hv) as [b Hb]. exists b. split; [exact Hb|].
  assert (Hs : signed_sum env verts faces 0 = None).
  { destruct (signed_sum env verts faces 0) as [x|] eqn:E; [|reflexivity].
    assert (H : forallb (valid_face verts) faces = true)
      by exact (signed_sum_some_valid env verts faces 0%float x E).
    congruence. }
  unfold volume_from_mesh, volume_tiers.
  rewrite (no_mesh_false verts faces Hv Hf), Hs, Hb.
  destruct Htri as [Ht | Ht]; rewrite Ht; [reflexivity|].
  now destruct (HAS_TRIMESH env).
Qed.

Lemma invalid_face_gives_bounding_box_witness :
  forallb (valid_face [(0, 0, 0); (2, 0, 0); (2, 3, 0); (0, 0, 4)]%float)
          [[0; 1; 2]; [0; 1; 7]] = false
  /\ HAS_TRIMESH Sample.bare = false
  /\ volume_from_mesh Sample.bare [(0, 0, 0); (2, 0, 0); (2, 3, 0); (0, 0, 4)]%float
       [[0; 1; 2]; [0; 1; 7]]
     = Returns 24%float.
Proof.
  split; [reflexivity|]. split; [reflexivity|].
  destruct (invalid_face_gives_bounding_box Sample.bare
              [(0, 0, 0); (2, 0, 0); (2, 3, 0); (0, 0, 4)]%float
              [[0; 1; 2]; [0; 1; 7]]
              ltac:(discriminate) ltac:(discriminate) eq_refl (or_introl eq_refl))
    as (b & Hb & Hr).
  vm_compute in Hb. injection Hb as <-. exact Hr.
Defined.

(** X5: what the estimate of a mesh is, tier by tier: 0.0 for a mesh
    without vertices or without faces; otherwise the volume that trimesh
    gives, when trimesh is there and its volume is positive; otherwise
    the absolute value of the signed sum, when the loop comes to its end
    and the sum is not zero; otherwise the product of the three extents
    of the vertices. *)
Theorem volume_from_mesh_result env verts faces x :
  volume_from_mesh env verts faces = Returns x ->
  ((verts = [] \/ faces = []) /\ x = 0%float)
  \/ (verts <> [] /\ faces <> []
      /\ HAS_TRIMESH env = true /\ trimesh_volume env verts faces = Some x
      /\ Py.gt x 0 = true)
  \/ (verts <> [] /\ faces <> []
      /\ (HAS_TRIMESH env = false \/ trimesh_volume env verts faces = None
          \/ exists vol, trimesh_volume env verts faces = Some vol /\ Py.gt vol 0 = false)
      /\ exists s, signed_sum env verts faces 0 = Some s
                   /\ Py.gt (abs s) 0 = true /\ x = abs s)
  \/ (verts <> [] /\ faces <> []
      /\ (HAS_TRIMESH env = false \/ trimesh_volume env verts faces = None
          \/ exists vol, trimesh_volume env verts faces = Some vol /\ Py.gt vol 0 = false)
      /\ (signed_sum env verts faces 0 = None
          \/ exists s, signed_sum env verts faces 0 = Some s /\ Py.gt (abs s) 0 = false)
      /\ box_volume verts = Some x).
Proof.
  unfold volume_from_mesh, volume_tiers.
  destruct verts as [|v0 verts].
  { cbn. intros H. inversion H. left. auto. }
  destruct faces as [|f0 faces].
  { cbn. intros H. inversion H. left. auto. }
  assert (Hv : v0 :: verts <> []) by discriminate.
  assert (Hf : f0 :: faces <> []) by discriminate.
  rewrite (no_mesh_false _ _ Hv Hf). cbn [and_then].
  destruct (bbox_volume_some v0 verts) as [b Hb].
  assert (Hbox : box_volume (v0 :: verts) = Some b)
    by (now rewrite <- bbox_volume_extents).
  rewrite Hb.
  set (vs := v0 :: verts) in *. set (fs := f0 :: faces) in *.
  destruct (signed_sum env vs fs 0) as [s|] eqn:Hs;
    [destruct (Py.gt (abs s) 0) eqn:Hps|];
    (destruct (HAS_TRIMESH env) eqn:Ht;
     [destruct (trimesh_volume env vs fs) as [vol|] eqn:Hvol;
      [destruct (Py.gt vol 0) eqn:Hp|]|]);
    cbn [attempt try_pass try_return and_then];
    rewrite ?Hp, ?Hps; cbn [attempt try_pass try_return and_then];
    intros H; inversion H; subst.
  all: try (right; left; repeat split; auto; fail).
  all: try (right; right; left; split; [exact Hv|]; split; [exact Hf|];
            split; [eauto 6|]; exists s; auto; fail).
  all: right; right; right; split; [exact Hv|]; split; [exact Hf|];
    split; [eauto 6|]; split; [eauto 6 | exact Hbox].
Qed.

Lemma volume_from_mesh_result_witness :
  volume_from_mesh Sample.bare [(0, 0, 0); (2, 0, 0); (2, 3, 0); (0, 0, 4)]%float
                   [[0; 1; 2]; [0; 1; 7]] = Returns 24%float
  /\ signed_sum Sample.bare [(0, 0, 0); (2, 0, 0); (2, 3, 0); (0, 0, 4)]%float
       [[0; 1; 2]; [0; 1; 7]] 0 = None
  /\ box_volume [(0, 0, 0); (2, 0, 0); (2, 3, 0); (0, 0, 4)]%float = Some 24%float.
Proof.
  assert (H : volume_from_mesh Sample.bare
                [(0, 0, 0); (2, 0, 0); (2, 3, 0); (0, 0, 4)]%float
                [[0; 1; 2]; [0; 1; 7]] = Returns 24%float)
    by (vm_compute; reflexivity).
  split; [exact H|]. split; [reflexivity|].
  destruct (volume_from_mesh_result Sample.bare _ _ _ H)
    as [[[E | E] _] | [(_ & _ & Ht & _) | [(_ & _ & _ & s & Hs & _) | (_ & _ & _ & _ & Hb)]]];
    [discriminate E | discriminate E | discriminate Ht | discriminate Hs | exact Hb].
Defined.

(** X6: in a mesh with vertices and faces the first tier that yields a
    positive volume decides: a positive trimesh volume is returned
    whatever the signed sum would be, and when trimesh is absent, raises
    or yields nothing positive, a signed sum that is not zero is returned
    in absolute value. *)
Theorem first_positive_tier_wins env verts faces :
  verts <> [] -> faces <> [] ->
  (forall vol, HAS_TRIMESH env = true ->
               trimesh_volume env verts faces = Some vol -> Py.gt vol 0 = true ->
               volume_from_mesh env verts faces = Returns vol)
  /\ (forall s,
         HAS_TRIMESH env = false \/ trimesh_volume env verts faces = None
         \/ (exists vol, trimesh_volume env verts faces = Some vol /\ Py.gt vol 0 = false) ->
         signed_sum env verts faces 0 = Some s -> Py.gt (abs s) 0 = true ->
         volume_from_mesh env verts faces = Returns (abs s)).
Proof.
  intros Hv Hf. unfold volume_from_mesh, volume_tiers.
  rewrite (no_mesh_false verts faces Hv Hf). cbn [and_then]. split.
  - intros vol Ht Hvol Hp. rewrite Ht, Hvol. cbn [attempt]. now rewrite Hp.
  - intros s Htri Hs Hp. rewrite Hs. cbn [attempt]. rewrite Hp.
    destruct Htri as [Ht | [Ht | (vol & Ht & Hz)]].
    + now rewrite Ht.
    + rewrite Ht. now destruct (HAS_TRIMESH env).
    + rewrite Ht. cbn [attempt]. rewrite Hz. now destruct (HAS_TRIMESH env).
Qed.

Lemma first_positive_tier_wins_witness :
  signed_sum Sample.bare [(0, 0, 0); (1, 0, 0); (0, 1, 0); (0, 0, 1)]%float
             [[1; 2; 3]] 0 = Some 0x1.5555555555555p-3%float
  /\ volume_from_mesh Sample.bare [(0, 0, 0); (1, 0, 0); (0, 1, 0); (0, 0, 1)]%float
       [[1; 2; 3]]
     = Returns 0x1.5555555555555p-3%float.
Proof.
  assert (Hs : signed_sum Sample.bare [(0, 0, 0); (1, 0, 0); (0, 1, 0); (0, 0, 1)]%float
                 [[1; 2; 3]] 0 = Some 0x1.5555555555555p-3%float)
    by (vm_compute; reflexivity).
  split; [exact Hs|].
  apply (proj2 (first_positive_tier_wins Sample.bare
                  [(0, 0, 0); (1, 0, 0); (0, 1, 0); (0, 0, 1)]%float [[1; 2; 3]]
                  ltac:(discriminate) ltac:(discriminate))
           0x1.5555555555555p-3%float (or_introl eq_refl) Hs).
  vm_compute. reflexivity.
Defined.

(** ** Without the geometry kernel *)

Lemma for_each_ext {A B} (f g : B -> signal A) (l : list B) :
  (forall x, f x = g x) -> for_each f l = for_each g l.
Proof.
  intros H. induction l as [|x l IH]; simpl; [reflexivity|].
  now rewrite H, IH.
Qed.

(** The look-up uses nothing of the environment but [float] on texts. *)
Lemma get_quantity_env env env' names obj :
  float_of_str env = float_of_str env' ->
  get_quantity_volume_from_obj env names obj
  = get_quantity_volume_from_obj env' names obj.
Proof.
  intros He.
  assert (Hn : forall nv, nominal_float env nv = nominal_float env' nv).
  { intros [w|]; [|reflexivity]. unfold nominal_float. now rewrite He. }
  assert (Hq : forall q, quantity_step env names q = quantity_step env' names q).
  { intros q. unfold quantity_step. now rewrite Hn. }
  assert (Hp : forall p, property_step env names p = property_step env' names p).
  { intros p. unfold property_step. now rewrite Hn. }
  assert (Hr : forall r, rel_step env names r = rel_step env' names r).
  { intros [[[qs|ps|]|]]; unfold rel_step; cbn [RelatingPropertyDefinition];
      auto using for_each_ext. }
  unfold get_quantity_volume_from_obj.
  destruct (IsDefinedBy obj) as [[|rel rels]|]; try reflexivity.
  now rewrite (for_each_ext _ _ (rel :: rels) Hr).
Qed.

Lemma storeys_loop_env env env' storeys gross_sum had :
  float_of_str env = float_of_str env' ->
  storeys_loop env storeys gross_sum had = storeys_loop env' storeys gross_sum had.
Proof.
  intros He. revert gross_sum had.
  induction storeys as [|st rest IH]; intros gross_sum had; simpl; [reflexivity|].
  rewrite (get_quantity_env env env' gross_names st He).
  destruct (get_quantity_volume_from_obj env' gross_names st) as [[q|]| |]; auto.
Qed.

Lemma row_of_without_geometry env env' sp :
  HAS_GEOM env = false -> HAS_GEOM env' = false ->
  float_of_str env = float_of_str env' ->
  space_volume env sp = space_volume env' sp.
Proof.
  intros Hg Hg' He. unfold space_volume.
  rewrite (get_quantity_env env env' _ sp He), Hg, Hg'. reflexivity.
Qed.

(** X7: when the geometry kernel is not available, nothing else of the
    environment matters but [float] on texts: the net total, the rows and
    the gross volume are those of any other environment without the
    kernel, whatever its kernel, trimesh or hull library would answer.
    No row is tagged Geometry(mesh), and the gross volume is not tagged
    ConvexHull(external) or BoundingBox(external). *)
Theorem without_geometry_only_quantities_count env env' model :
  HAS_GEOM env = false -> HAS_GEOM env' = false ->
  float_of_str env = float_of_str env' ->
  compute_net_volume_spaces env model = compute_net_volume_spaces env' model
  /\ compute_gross_volume env model = compute_gross_volume env' model
  /\ (forall total rows,
         compute_net_volume_spaces env model = Returns (total, rows) ->
         Forall (fun r => Methode r = "Quantity(Net/Volume)" \/ Methode r = "Unavail") rows)
  /\ (forall x m,
         compute_gross_volume env model = Returns (x, m) ->
         m = "IfcBuilding:GrossVolume" \/ m = "Σ Storey:GrossVolume"
         \/ (m = "None" /\ x = 0%float)).
Proof.
  intros Hg Hg' He.
  assert (Hrow : forall sp, row_of env sp = row_of env' sp).
  { intros sp. unfold row_of, vol_of, method_of.
    now rewrite (row_of_without_geometry env env' sp Hg Hg' He). }
  assert (Hvol : forall sp, vol_of env sp = vol_of env' sp).
  { intros sp. unfold vol_of.
    now rewrite (row_of_without_geometry env env' sp Hg Hg' He). }
  split; [|split; [|split]].
  - rewrite !compute_net_volume_spaces_spec.
    now rewrite (map_ext _ _ Hrow), (map_ext _ _ Hvol).
  - unfold compute_gross_volume, collect_building_vertices.
    rewrite Hg, Hg'. cbn [negb].
    rewrite (for_each_ext (building_step env) (building_step env')).
    + now rewrite (storeys_loop_env env env' _ _ _ He).
    + intros b. unfold building_step. now rewrite (get_quantity_env env env' _ b He).
  - intros total rows H. rewrite compute_net_volume_spaces_spec in H.
    inversion H; subst. apply Forall_forall. intros r Hr.
    apply in_map_iff in Hr. destruct Hr as (sp & <- & _).
    unfold row_of, space_row, method_of, space_volume. cbn [Methode].
    rewrite Hg.
    destruct (get_quantity_returns env ["NetVolume"; "Volume"] sp) as [[v|] Hq];
      rewrite Hq; auto.
  - intros x m. unfold compute_gross_volume, collect_building_vertices.
    rewrite Hg. cbn [negb].
    destruct (for_each_building_step env (by_type model "IfcBuilding"))
      as [Hb | [[g t] Hb]].
    + rewrite Hb. cbn [and_then].
      destruct (storeys_loop_some env (by_type model "IfcBuildingStorey") 0%float false)
        as (s & h & Hs).
      rewrite Hs. cbn [attempt].
      destruct (h && Py.gt s 0)%bool; cbn; intros H; inversion H; subst; auto.
    + assert (Ht : t = "IfcBuilding:GrossVolume").
      { clear - Hb. induction (by_type model "IfcBuilding") as [|b bs IH];
          [discriminate Hb|].
        simpl in Hb.
        destruct (get_quantity_returns env gross_names b) as [[q|] Hq].
        - rewrite (building_step_found _ _ _ Hq) in Hb. simpl in Hb.
          now inversion Hb.
        - rewrite (building_step_absent _ _ Hq) in Hb. now apply IH. }
      rewrite Hb. cbn [and_then]. intros H. inversion H; subst. auto.
Qed.

Lemma without_geometry_only_quantities_count_witness :
  HAS_GEOM Sample.bare = false
  /\ HAS_GEOM Cases.libraries_without_kernel = false
  /\ float_of_str Sample.bare = float_of_str Cases.libraries_without_kernel
  /\ compute_net_volume_spaces Sample.bare Sample.mixed_spaces
     = compute_net_volume_spaces Cases.libraries_without_kernel Sample.mixed_spaces.
Proof.
  split; [reflexivity|]. split; [reflexivity|]. split; [reflexivity|].
  apply (without_geometry_only_quantities_count Sample.bare
           Cases.libraries_without_kernel Sample.mixed_spaces
           eq_refl eq_refl eq_refl).
Defined.

(** ** More on the quantity look-up *)

Lemma for_each_returns_inv {A B} (body : B -> signal A) (l : list B) a :
  for_each body l = Returns a ->
  exists pre x post,
    l = pre ++ x :: post /\ Forall (fun y => body y = Falls) pre /\ body x = Returns a.
Proof.
  induction l as [|x l IH]; simpl; [discriminate|].
  destruct (body x) as [b| |] eqn:E; simpl; intros H.
  - inversion H; subst b. exists [], x, l. auto.
  - destruct (IH H) as (pre & y & post & -> & Hpre & Hy).
    exists (x :: pre), y, post. auto.
  - discriminate H.
Qed.

Lemma for_each_first {A B} (body : B -> signal A) pre x post r :
  Forall (fun y => body y = Falls) pre -> body x = Returns r ->
  for_each body (pre ++ x :: post) = Returns r.
Proof.
  intros Hpre Hx. rewrite for_each_app, for_each_falls.
  - simpl. now rewrite Hx.
  - intros y Hy. rewrite Forall_forall in Hpre. now apply Hpre.
Qed.

(** X8: the look-up returns a value exactly when some relationship yields
    it and every relationship before that one was passed over without a
    match: relationships are tried in their order, whether they are
    quantity sets or property sets, and what follows the first that
    yields a value is not looked at. *)
Theorem first_relationship_with_a_value env names obj rels v :
  IsDefinedBy obj = Some rels ->
  (get_quantity_volume_from_obj env names obj = Returns (Some v)
   <-> exists pre rel post,
         rels = pre ++ rel :: post
         /\ Forall (fun r => rel_step env names r = Falls) pre
         /\ rel_step env names rel = Returns (Some v)).
Proof.
  intros Hr. unfold get_quantity_volume_from_obj. rewrite Hr. split.
  - destruct rels as [|rel rels]; [discriminate|].
    destruct (for_each (rel_step env names) (rel :: rels)) as [r| |] eqn:E;
      cbn; intros H; inversion H; subst r.
    now apply for_each_returns_inv.
  - intros (pre & rel & post & -> & Hpre & Hrel).
    rewrite (for_each_first _ pre rel post (Some v) Hpre Hrel).
    destruct pre; reflexivity.
Qed.

Lemma first_relationship_with_a_value_witness :
  IsDefinedBy Cases.three_relationships
  = Some ([Cases.height_rel] ++ Cases.volume_rel :: [Cases.net_volume_rel])
  /\ rel_step Sample.bare ["NetVolume"; "Volume"] Cases.height_rel = Falls
  /\ rel_step Sample.bare ["NetVolume"; "Volume"] Cases.volume_rel
     = Returns (Some 5%float)
  /\ get_quantity_volume_from_obj Sample.bare ["NetVolume"; "Volume"]
       Cases.three_relationships
     = Returns (Some 5%float).
Proof.
  split; [reflexivity|]. split; [reflexivity|]. split; [reflexivity|].
  apply (proj2 (first_relationship_with_a_value Sample.bare ["NetVolume"; "Volume"]
                  Cases.three_relationships
                  ([Cases.height_rel] ++ Cases.volume_rel :: [Cases.net_volume_rel])
                  5%float eq_refl)).
  exists [Cases.height_rel], Cases.volume_rel, [Cases.net_volume_rel].
  split; [reflexivity|]. split; [repeat constructor | reflexivity].
Defined.

(** X9: within a quantity set only the volume quantities are looked at:
    the result is the one of the set with every other quantity taken
    out, whatever their names and values, a missing name included. *)
Theorem other_quantities_are_skipped env names qs :
  for_each (quantity_step env names) qs
  = for_each (quantity_step env names) (filter is_volume_quantity qs)
  /\ rel_step env names {| RelatingPropertyDefinition := Some (IfcElementQuantity qs) |}
     = rel_step env names
         {| RelatingPropertyDefinition :=
              Some (IfcElementQuantity (filter is_volume_quantity qs)) |}.
Proof.
  assert (H : for_each (quantity_step env names) qs
              = for_each (quantity_step env names) (filter is_volume_quantity qs)).
  { induction qs as [|q qs IH]; [reflexivity|].
    cbn [filter for_each]. unfold is_volume_quantity at 1.
    destruct (String.eqb (q_class q) "IfcQuantityVolume") eqn:E.
    - cbn [for_each]. now rewrite IH.
    - unfold quantity_step at 1. rewrite E. exact IH. }
  split; [exact H | exact H].
Qed.

(** X10: whether a name matches depends on its lower-case spelling and on
    the lower-case spellings of the candidate names only: a quantity or a
    property renamed to another spelling of the same name, looked up
    under other spellings of the same candidates, gives the same
    result. *)
Theorem matching_ignores_case env names names' s s' :
  map Py.lower names = map Py.lower names' ->
  Py.lower s = Py.lower s' ->
  name_matches names (Some s) = name_matches names' (Some s')
  /\ (forall c vv nv,
         quantity_step env names
           {| q_class := c; q_Name := Some s; VolumeValue := vv; q_NominalValue := nv |}
         = quantity_step env names'
             {| q_class := c; q_Name := Some s'; VolumeValue := vv; q_NominalValue := nv |})
  /\ (forall nv,
         property_step env names {| p_Name := Some s; NominalValue := nv |}
         = property_step env names' {| p_Name := Some s'; NominalValue := nv |}).
Proof.
  intros Hn Hs.
  assert (H : name_matches names (Some s) = name_matches names' (Some s'))
    by (now rewrite !name_matches_lower, Hn, Hs).
  split; [exact H|]. split.
  - intros c vv nv. unfold quantity_step. cbn [q_class q_Name VolumeValue q_NominalValue].
    now rewrite H.
  - intros nv. unfold property_step. cbn [p_Name NominalValue]. now rewrite H.
Qed.

Lemma matching_ignores_case_witness :
  map Py.lower ["NetVolume"; "Volume"] = map Py.lower ["NETVOLUME"; "volume"]
  /\ Py.lower "VOLUME" = Py.lower "Volume"
  /\ property_step Sample.bare ["NetVolume"; "Volume"]
       {| p_Name := Some "VOLUME"; NominalValue := Some (Py.WFloat 5) |}
     = Returns (Some 5%float)
  /\ property_step Sample.bare ["NETVOLUME"; "volume"]
       {| p_Name := Some "Volume"; NominalValue := Some (Py.WFloat 5) |}
     = Returns (Some 5%float).
Proof.
  split; [reflexivity|]. split; [reflexivity|]. split; [reflexivity|].
  rewrite <- (proj2 (proj2 (matching_ignores_case Sample.bare
                              ["NetVolume"; "Volume"] ["NETVOLUME"; "volume"]
                              "VOLUME" "Volume" eq_refl eq_refl))
                (Some (Py.WFloat 5))).
  reflexivity.
Defined.

(** ** The display name of a space *)

Lemma code_points_not_empty pending cur s :
  Forall (fun ch => ch <> EmptyString) (Py.code_points_from pending cur s).
Proof.
  revert pending cur. induction s as [|c r IH]; intros pending cur.
  - cbn. destruct cur; constructor; [discriminate | constructor].
  - cbn [Py.code_points_from]. destruct pending as [|k]; [|apply IH].
    destruct cur; [apply IH|]. constructor; [discriminate | apply IH].
Qed.

Lemma concat_not_empty l :
  Forall (fun ch => ch <> EmptyString) l ->
  String.concat EmptyString l = EmptyString -> l = [].
Proof.
  destruct l as [|x r]; [reflexivity|].
  intros H. inversion H as [|? ? Hx Hr]; subst.
  destruct x as [|c x]; [contradiction|].
  cbn. destruct r; discriminate.
Qed.

Lemma drop_while_nil {A} (p : A -> bool) l :
  Py.drop_while p l = [] <-> forallb p l = true.
Proof.
  induction l as [|x r IH]; cbn; [tauto|].
  destruct (p x); cbn; [exact IH|]. split; discriminate.
Qed.

Lemma drop_while_split {A} (p : A -> bool) l :
  exists pre, l = pre ++ Py.drop_while p l /\ forallb p pre = true.
Proof.
  induction l as [|x r (pre & IH & Hp)]; [exists []; auto|].
  cbn. destruct (p x) eqn:E.
  - exists (x :: pre). cbn. rewrite E, <- IH. auto.
  - exists []. auto.
Qed.

Lemma drop_while_head {A} (p : A -> bool) l x r :
  Py.drop_while p l = x :: r -> p x = false.
Proof.
  induction l as [|y l IH]; cbn; [discriminate|].
  destruct (p y) eqn:E; [exact IH|]. intros H. inversion H; subst. exact E.
Qed.

Lemma forallb_rev {A} (p : A -> bool) l : forallb p (rev l) = forallb p l.
Proof.
  induction l as [|x r IH]; [reflexivity|].
  cbn. rewrite forallb_app, IH. cbn. rewrite andb_true_r. apply andb_comm.
Qed.

(** The code points of a string, cut in the white space before, what
    [strip] keeps, and the white space after. *)
Lemma stripped_split s :
  exists before after,
    Py.code_points s = before ++ Py.stripped s ++ after
    /\ forallb Py.is_space before = true /\ forallb Py.is_space after = true.
Proof.
  unfold Py.stripped.
  destruct (drop_while_split Py.is_space (Py.code_points s)) as (before & Hb & Hpb).
  set (m := Py.drop_while Py.is_space (Py.code_points s)) in *.
  destruct (drop_while_split Py.is_space (rev m)) as (pre & Hm & Hpp).
  exists before, (rev pre). split; [|split; [exact Hpb | now rewrite forallb_rev]].
  rewrite Hb at 1. f_equal.
  rewrite <- (rev_involutive m) at 1. rewrite Hm at 1. apply rev_app_distr.
Qed.

Lemma stripped_nil s :
  Py.stripped s = [] <-> forallb Py.is_space (Py.code_points s) = true.
Proof.
  destruct (stripped_split s) as (before & after & Hc & Hb & Ha).
  split.
  - intros H. rewrite Hc, H, !forallb_app, Hb, Ha. reflexivity.
  - intros H. unfold Py.stripped.
    apply (drop_while_nil Py.is_space) in H. rewrite H. reflexivity.
Qed.

Lemma stripped_ends s first rest :
  Py.stripped s = first :: rest ->
  Py.is_space first = false
  /\ exists front last, Py.stripped s = front ++ [last] /\ Py.is_space last = false.
Proof.
  unfold Py.stripped.
  set (m := Py.drop_while Py.is_space (Py.code_points s)).
  destruct (drop_while_split Py.is_space (rev m)) as (pre & Hm & Hpp).
  destruct (Py.drop_while Py.is_space (rev m)) as [|x d] eqn:Hd; [discriminate|].
  intros H. split.
  - assert (Em : m = rev (x :: d) ++ rev pre).
    { rewrite <- (rev_involutive m), Hm. apply rev_app_distr. }
    rewrite H in Em. cbn in Em.
    apply (drop_while_head Py.is_space (Py.code_points s) first (rest ++ rev pre)).
    exact Em.
  - exists (rev d), x. split; [reflexivity|].
    exact (drop_while_head Py.is_space (rev m) x d Hd).
Qed.

Lemma strip_empty s :
  Py.strip s = EmptyString <-> forallb Py.is_space (Py.code_points s) = true.
Proof.
  rewrite <- stripped_nil. unfold Py.strip. split.
  - apply concat_not_empty.
    destruct (stripped_split s) as (before & after & Hc & _).
    pose proof (code_points_not_empty 0 EmptyString s) as H.
    fold (Py.code_points s) in H. rewrite Hc in H.
    apply Forall_app in H. destruct H as [_ H].
    apply Forall_app in H. exact (proj1 H).
  - now intros ->.
Qed.

(** X11: the display name of a space is its identifier when the name is
    missing, empty or made of white space only, the white space of
    Unicode included; otherwise it is what [strip] keeps of the name: its
    code points without the white space before and after, not empty,
    with a first and a last code point that are not white space. *)
Theorem display_name_falls_back_to_the_identifier sp :
  let name := match Name sp with Some n => n | None => EmptyString end in
  (forallb Py.is_space (Py.code_points name) = true -> display_name sp = GlobalId sp)
  /\ (forallb Py.is_space (Py.code_points name) = false ->
      display_name sp = String.concat EmptyString (Py.stripped name)
      /\ display_name sp <> EmptyString
      /\ (exists before after,
             Py.code_points name = before ++ Py.stripped name ++ after
             /\ forallb Py.is_space before = true /\ forallb Py.is_space after = true)
      /\ (exists first rest, Py.stripped name = first :: rest /\ Py.is_space first = false)
      /\ (exists front last, Py.stripped name = front ++ [last]
                             /\ Py.is_space last = false)).
Proof.
  intros name. unfold display_name. fold name. split.
  - intros H. apply strip_empty in H. now rewrite H.
  - intros H.
    assert (Hne : Py.strip name <> EmptyString).
    { intros E. apply strip_empty in E. congruence. }
    assert (Hd : match Py.strip name with
                 | EmptyString => GlobalId sp
                 | String a s => String a s
                 end = Py.strip name)
      by (destruct (Py.strip name); [contradiction | reflexivity]).
    rewrite Hd. split; [reflexivity|]. split; [exact Hne|].
    split; [apply stripped_split|].
    destruct (Py.stripped name) as [|first rest] eqn:Es.
    + apply stripped_nil in Es. congruence.
    + destruct (stripped_ends name first rest Es) as (Hf & front & last & El & Hl).
      split; [eauto|]. exists front, last. rewrite <- Es, El. auto.
Qed.

Lemma display_name_falls_back_to_the_identifier_witness :
  (forallb Py.is_space (Py.code_points Cases.no_break_space) = true
   /\ display_name {| GlobalId := "2O2Fr$t4X7Zf8NOew3FLOH";
                      Name := Some Cases.no_break_space;
                      IsDefinedBy := None; IsExternal := None |}
      = "2O2Fr$t4X7Zf8NOew3FLOH")
  /\ (forallb Py.is_space (Py.code_points " Hal 1 ") = false
      /\ display_name {| GlobalId := "2O2Fr$t4X7Zf8NOew3FLOH"; Name := Some " Hal 1 ";
                         IsDefinedBy := None; IsExternal := None |}
         = "Hal 1").
Proof.
  split.
  - split; [reflexivity|].
    apply (proj1 (display_name_falls_back_to_the_identifier
                    {| GlobalId := "2O2Fr$t4X7Zf8NOew3FLOH";
                       Name := Some Cases.no_break_space;
                       IsDefinedBy := None; IsExternal := None |})).
    reflexivity.
  - split; [reflexivity|].
    destruct (proj2 (display_name_falls_back_to_the_identifier
                       {| GlobalId := "2O2Fr$t4X7Zf8NOew3FLOH"; Name := Some " Hal 1 ";
                          IsDefinedBy := None; IsExternal := None |}) eq_refl)
      as (H & _).
    rewrite H. reflexivity.
Defined.

(** ** More on the net volume *)

Lemma row_of_quantity env sp v :
  get_quantity_volume_from_obj env ["NetVolume"; "Volume"] sp = Returns (Some v) ->
  vol_of env sp = v /\ row_of env sp = space_row sp v "Quantity(Net/Volume)".
Proof.
  intros H. unfold row_of, vol_of, method_of, space_volume. rewrite H. auto.
Qed.

(** X12: a space for which the look-up finds a net volume gets that
    volume, 0 included, and the method Quantity(Net/Volume); its row does
    not depend on the geometry kernel or on any other library. *)
Theorem quantity_comes_before_geometry env sp v :
  get_quantity_volume_from_obj env ["NetVolume"; "Volume"] sp = Returns (Some v) ->
  vol_of env sp = v
  /\ row_of env sp = space_row sp v "Quantity(Net/Volume)"
  /\ forall env', float_of_str env' = float_of_str env ->
                  row_of env' sp = row_of env sp.
Proof.
  intros H. destruct (row_of_quantity env sp v H) as [Hv Hr].
  split; [exact Hv|]. split; [exact Hr|].
  intros env' He.
  rewrite (get_quantity_env env env' _ sp (eq_sym He)) in H.
  rewrite Hr. now apply row_of_quantity.
Qed.

Lemma quantity_comes_before_geometry_witness :
  get_quantity_volume_from_obj Sample.with_geom ["NetVolume"; "Volume"]
    (Sample.entity "cube" [Sample.qto [Sample.quantity "NetVolume" 0]])
  = Returns (Some 0%float)
  /\ usable_mesh Sample.with_geom
       (Sample.entity "cube" [Sample.qto [Sample.quantity "NetVolume" 0]]) = true
  /\ Methode (row_of Sample.with_geom
                (Sample.entity "cube" [Sample.qto [Sample.quantity "NetVolume" 0]]))
     = "Quantity(Net/Volume)".
Proof.
  split; [reflexivity|]. split; [reflexivity|].
  destruct (quantity_comes_before_geometry Sample.with_geom
              (Sample.entity "cube" [Sample.qto [Sample.quantity "NetVolume" 0]])
              0%float eq_refl) as (_ & H & _).
  rewrite H. reflexivity.
Defined.

Lemma row_of_cases env sp :
  (exists v, row_of env sp = space_row sp v "Quantity(Net/Volume)")
  \/ (HAS_GEOM env = true /\ exists v, row_of env sp = space_row sp v "Geometry(mesh)")
  \/ row_of env sp = failed_row sp.
Proof.
  destruct (get_quantity_returns env ["NetVolume"; "Volume"] sp) as [[v|] Hq].
  - left. exists v. now apply row_of_quantity.
  - assert (Hm : quantity_missing env sp = true)
      by (unfold quantity_missing; now rewrite Hq).
    destruct (HAS_GEOM env) eqn:Hg.
    + destruct (usable_mesh env sp) eqn:Hu.
      * right. left. split; [reflexivity|].
        destruct (tessellated_volume_usable env sp Hu) as (sh & v & f & x & _ & _ & _ & Ht).
        exists x. unfold row_of, vol_of, method_of.
        rewrite (space_volume_missing env sp Hm), Hg, Ht. reflexivity.
      * right. right. apply failed_row_of. unfold resolution_fails.
        now rewrite Hm, Hg, Hu.
    + right. right. apply failed_row_of. unfold resolution_fails.
      now rewrite Hm, Hg.
Qed.

(** X13: every row that [compute_net_volume_spaces] returns has the type
    IfcSpace and one of the three methods Quantity(Net/Volume),
    Geometry(mesh) and Unavail; a row with method Unavail holds 0.0, and
    a row with method Geometry(mesh) needs the geometry kernel. *)
Theorem rows_carry_one_of_three_methods env model total rows :
  compute_net_volume_spaces env model = Returns (total, rows) ->
  Forall (fun r =>
            IfcType r = "IfcSpace"
            /\ (Methode r = "Quantity(Net/Volume)" \/ Methode r = "Geometry(mesh)"
                \/ Methode r = "Unavail")
            /\ (Methode r = "Unavail" -> Netto_m3 r = 0%float)
            /\ (Methode r = "Geometry(mesh)" -> HAS_GEOM env = true)) rows.
Proof.
  intros H. rewrite compute_net_volume_spaces_spec in H. inversion H; subst.
  apply Forall_forall. intros r Hr. apply in_map_iff in Hr.
  destruct Hr as (sp & <- & _).
  destruct (row_of_cases env sp) as [[v E] | [[Hg [v E]] | E]]; rewrite E; cbn.
  - split; [reflexivity|]. split; [auto|]. split; discriminate.
  - split; [reflexivity|]. split; [auto|]. split; [discriminate | auto].
  - split; [reflexivity|]. split; [auto|]. split; [reflexivity | discriminate].
Qed.

Lemma rows_carry_one_of_three_methods_witness :
  exists total rows,
    compute_net_volume_spaces Sample.with_geom Sample.mixed_spaces = Returns (total, rows)
    /\ Forall (fun r => Methode r = "Unavail" -> Netto_m3 r = 0%float) rows.
Proof.
  eexists. eexists. split; [apply compute_net_volume_spaces_spec|].
  eapply Forall_impl;
    [|apply (rows_carry_one_of_three_methods Sample.with_geom Sample.mixed_spaces
               _ _ (compute_net_volume_spaces_spec _ _))].
  intros r (_ & _ & H & _). exact H.
Defined.

(** ** collect_building_vertices *)

Lemma add_concat env acc e :
  List.concat (add env acc e) = List.concat acc ++ element_vertices env e.
Proof.
  unfold add, element_vertices.
  destruct (create_shape env e) as [sh|]; [|now rewrite app_nil_r].
  destruct (shape_to_mesh sh) as [v f]. cbn [fst].
  destruct v as [|v0 v].
  - cbn. now rewrite app_nil_r.
  - cbn [List.length Nat.ltb Nat.leb]. rewrite concat_app. cbn. now rewrite app_nil_r.
Qed.

Lemma fold_add_concat env l acc :
  List.concat (fold_left (add env) l acc)
  = List.concat acc ++ flat_map (element_vertices env) l.
Proof.
  revert acc. induction l as [|e l IH]; intros acc; cbn [fold_left flat_map].
  - now rewrite app_nil_r.
  - now rewrite IH, add_concat, <- app_assoc.
Qed.

(** X14: the collected vertices are those of the walls not flagged as
    internal (under IfcWallStandardCase first, then under IfcWall), of
    the slabs and of the roofs, in this order, each element giving the
    vertices of its tessellation, or none when the tessellation fails; a
    wall whose IsExternal is false is left out; without the geometry
    kernel nothing is collected. *)
Theorem collected_vertices env model :
  collect_building_vertices env model
  = (if HAS_GEOM env then flat_map (element_vertices env) (envelope_elements model)
     else [])
  /\ (forall e, In e (envelope_elements model) <->
                ((In e (by_type model "IfcWallStandardCase") \/ In e (by_type model "IfcWall"))
                 /\ IsExternal e <> Some false)
                \/ In e (by_type model "IfcSlab") \/ In e (by_type model "IfcRoof"))
  /\ (forall e, create_shape env e = None -> element_vertices env e = []).
Proof.
  split; [|split].
  - unfold collect_building_vertices, envelope_elements.
    destruct (HAS_GEOM env); cbn [negb]; [|reflexivity].
    rewrite fold_add_concat. cbn [List.concat app]. now rewrite <- app_assoc.
  - intros e. unfold envelope_elements. rewrite !in_app_iff, !filter_In.
    unfold taken_as_external.
    destruct (IsExternal e) as [[|]|]; intuition congruence.
  - intros e H. unfold element_vertices. now rewrite H.
Qed.

Lemma collected_vertices_witness :
  create_shape Sample.with_geom (Sample.entity "broken" []) = None
  /\ element_vertices Sample.with_geom (Sample.entity "broken" []) = [].
Proof.
  split; [reflexivity|].
  apply (proj2 (proj2 (collected_vertices Sample.with_geom Sample.nothing))
           (Sample.entity "broken" []) eq_refl).
Defined.

(** ** More on the gross volume *)

Lemma found_quantity_cases env names e :
  (exists q, get_quantity_volume_from_obj env names e = Returns (Some q)
             /\ found_quantity env names e = Some q)
  \/ (get_quantity_volume_from_obj env names e = Returns None
      /\ found_quantity env names e = None).
Proof.
  unfold found_quantity.
  destruct (get_quantity_returns env names e) as [[q|] H]; rewrite H; eauto.
Qed.

Lemma storeys_loop_spec env storeys gross_sum had :
  storeys_loop env storeys gross_sum had
  = Some (fold_left PrimFloat.add (storey_values env storeys) gross_sum,
          (had || match storey_values env storeys with [] => false | _ => true end)%bool).
Proof.
  revert gross_sum had.
  induction storeys as [|st rest IH]; intros gross_sum had.
  - cbn. now rewrite orb_false_r.
  - cbn [storeys_loop storey_values flat_map].
    destruct (found_quantity_cases env gross_names st) as [(q & Hq & Hf) | [Hq Hf]];
      rewrite Hq, Hf, IH.
    + cbn. now rewrite orb_true_r.
    + reflexivity.
Qed.

Lemma buildings_absent_iff env bs :
  for_each (building_step env) bs = Falls
  <-> Forall (fun b => get_quantity_volume_from_obj env gross_names b = Returns None) bs.
Proof.
  split; [|apply buildings_absent].
  induction bs as [|b bs IH]; [constructor|].
  cbn [for_each].
  destruct (get_quantity_returns env gross_names b) as [[q|] Hq].
  - rewrite (building_step_found _ _ _ Hq). discriminate.
  - rewrite (building_step_absent _ _ Hq). intros H. constructor; auto.
Qed.

Lemma building_tag env bs x m :
  for_each (building_step env) bs = Returns (x, m) -> m = "IfcBuilding:GrossVolume".
Proof.
  induction bs as [|b bs IH]; [discriminate|].
  cbn [for_each].
  destruct (get_quantity_returns env gross_names b) as [[q|] Hq].
  - rewrite (building_step_found _ _ _ Hq). cbn. intros H. now inversion H.
  - rewrite (building_step_absent _ _ Hq). exact IH.
Qed.

(** X15: when no building has a gross-volume quantity, at least one storey
    has one, and their sum, added up in the order of the storeys from
    0.0, is positive, the gross volume is that sum, tagged
    Σ Storey:GrossVolume; storeys without a quantity do not count, and
    the geometry is not consulted. *)
Theorem storey_sum_is_returned env model :
  Forall (fun b => get_quantity_volume_from_obj env gross_names b = Returns None)
         (by_type model "IfcBuilding") ->
  storey_values env (by_type model "IfcBuildingStorey") <> [] ->
  Py.gt (fold_left PrimFloat.add
           (storey_values env (by_type model "IfcBuildingStorey")) 0%float) 0 = true ->
  compute_gross_volume env model
  = Returns (fold_left PrimFloat.add
               (storey_values env (by_type model "IfcBuildingStorey")) 0%float,
             "Σ Storey:GrossVolume").
Proof.
  intros Hb Hne Hp. unfold compute_gross_volume.
  rewrite (buildings_absent _ _ Hb), storeys_loop_spec. cbn [and_then attempt].
  destruct (storey_values env (by_type model "IfcBuildingStorey")) as [|q qs];
    [contradiction|].
  cbn [orb andb]. now rewrite Hp.
Qed.

Lemma storey_sum_is_returned_witness :
  storey_values Sample.with_hull (by_type Cases.two_storeys "IfcBuildingStorey")
  = [100; 50]%float
  /\ compute_gross_volume Sample.with_hull Cases.two_storeys
     = Returns (150%float, "Σ Storey:GrossVolume").
Proof.
  assert (Hv : storey_values Sample.with_hull (by_type Cases.two_storeys "IfcBuildingStorey")
               = [100; 50]%float) by reflexivity.
  split; [exact Hv|].
  rewrite (storey_sum_is_returned Sample.with_hull Cases.two_storeys);
    [rewrite Hv; vm_compute; reflexivity
    | repeat constructor
    | rewrite Hv; discriminate
    | rewrite Hv; vm_compute; reflexivity].
Defined.

Lemma envelope_tiers_cases env verts :
  (verts = [] /\ envelope_tiers env verts = Returns (0%float, "None"))
  \/ (verts <> [] /\ HAS_SCIPY env = true
      /\ exists h, Py.gt h 0 = true
                   /\ envelope_tiers env verts = Returns (h, "ConvexHull(external)"))
  \/ (verts <> []
      /\ exists b, bbox_volume verts = Some b
                   /\ envelope_tiers env verts = Returns (b, "BoundingBox(external)")).
Proof.
  destruct verts as [|v verts]; [left; split; reflexivity|].
  assert (Hne : v :: verts <> []) by discriminate.
  destruct (HAS_SCIPY env) eqn:Hs.
  - destruct (hull_volume env (v :: verts)) as [h|] eqn:Hh.
    + destruct (Py.gt h 0) eqn:Hp.
      * right. left. split; [exact Hne|]. split; [reflexivity|]. exists h.
        split; [exact Hp|]. now apply envelope_hull.
      * right. right. split; [exact Hne|]. apply envelope_bbox; eauto.
    + right. right. split; [exact Hne|]. apply envelope_bbox; auto.
  - right. right. split; [exact Hne|]. apply envelope_bbox; auto.
Qed.

Lemma collect_needs_geometry env model :
  collect_building_vertices env model <> [] -> HAS_GEOM env = true.
Proof.
  unfold collect_building_vertices. destruct (HAS_GEOM env); [reflexivity|].
  intros H. now contradict H.
Qed.

(** X16: the method of the gross volume is one of IfcBuilding:GrossVolume,
    Σ Storey:GrossVolume, ConvexHull(external), BoundingBox(external)
    and None.  With None the value is 0.0; with the storey sum and with
    the convex hull it is positive; the two geometric methods need the
    geometry kernel, and the convex hull the hull library. *)
Theorem gross_method_and_value env model x m :
  compute_gross_volume env model = Returns (x, m) ->
  (m = "IfcBuilding:GrossVolume" \/ m = "Σ Storey:GrossVolume"
   \/ m = "ConvexHull(external)" \/ m = "BoundingBox(external)" \/ m = "None")
  /\ (m = "None" -> x = 0%float)
  /\ (m = "Σ Storey:GrossVolume" -> Py.gt x 0 = true)
  /\ (m = "ConvexHull(external)" ->
      Py.gt x 0 = true /\ HAS_GEOM env = true /\ HAS_SCIPY env = true)
  /\ (m = "BoundingBox(external)" -> HAS_GEOM env = true).
Proof.
  unfold compute_gross_volume.
  destruct (for_each_building_step env (by_type model "IfcBuilding"))
    as [Hb | [[g t] Hb]].
  - rewrite Hb, storeys_loop_spec. cbn [and_then attempt].
    destruct ((false || match storey_values env (by_type model "IfcBuildingStorey") with
                        | [] => false
                        | _ :: _ => true
                        end)
              && Py.gt (fold_left PrimFloat.add
                          (storey_values env (by_type model "IfcBuildingStorey")) 0%float) 0)%bool
      eqn:Hs; cbn [and_then].
    + apply andb_true_iff in Hs. destruct Hs as [_ Hp].
      intros H. inversion H; subst.
      split; [auto|]. split; [discriminate|]. split; [auto|].
      split; discriminate.
    + destruct (envelope_tiers_cases env (collect_building_vertices env model))
        as [[Hv E] | [(Hv & Hsc & h & Hp & E) | (Hv & b & Hbb & E)]];
        rewrite E; intros H; inversion H; subst.
      * split; [auto 6|]. split; [auto|]. split; [discriminate|].
        split; discriminate.
      * split; [auto 6|]. split; [discriminate|]. split; [discriminate|].
        split; [|discriminate].
        intros _. split; [exact Hp|]. split; [|exact Hsc].
        now apply (collect_needs_geometry env model).
      * split; [auto 6|]. split; [discriminate|]. split; [discriminate|].
        split; [discriminate|].
        intros _. now apply (collect_needs_geometry env model).
  - rewrite Hb. cbn [and_then]. intros H. inversion H; subst.
    rewrite (building_tag env _ _ _ Hb).
    split; [auto|]. split; [discriminate|]. split; [discriminate|].
    split; discriminate.
Qed.

Lemma gross_method_and_value_witness :
  compute_gross_volume Sample.with_hull Sample.cube_envelope
  = Returns (1%float, "ConvexHull(external)")
  /\ Py.gt 1 0 = true /\ HAS_GEOM Sample.with_hull = true.
Proof.
  assert (H : compute_gross_volume Sample.with_hull Sample.cube_envelope
              = Returns (1%float, "ConvexHull(external)")) by (vm_compute; reflexivity).
  split; [exact H|].
  destruct (gross_method_and_value Sample.with_hull Sample.cube_envelope _ _ H)
    as (_ & _ & _ & Hc & _).
  destruct (Hc eq_refl) as (Hp & Hg & _). split; assumption.
Defined.

(** X17: the gross volume is tagged None, with value 0.0, exactly when no
    building has a gross-volume quantity, the storeys have none or a sum
    that is not positive, and no envelope vertex was collected. *)
Theorem no_data_no_gross_volume env model :
  compute_gross_volume env model = Returns (0%float, "None")
  <-> (Forall (fun b => get_quantity_volume_from_obj env gross_names b = Returns None)
              (by_type model "IfcBuilding")
       /\ (storey_values env (by_type model "IfcBuildingStorey") = []
           \/ Py.gt (fold_left PrimFloat.add
                       (storey_values env (by_type model "IfcBuildingStorey")) 0%float) 0
              = false)
       /\ collect_building_vertices env model = []).
Proof.
  unfold compute_gross_volume. split.
  - destruct (for_each_building_step env (by_type model "IfcBuilding"))
      as [Hb | [[g t] Hb]].
    + rewrite Hb, storeys_loop_spec. cbn [and_then attempt orb].
      intros H. split; [now apply buildings_absent_iff|].
      destruct (storey_values env (by_type model "IfcBuildingStorey")) as [|q qs] eqn:Hv.
      * split; [auto|].
        cbn [andb and_then] in H.
        destruct (envelope_tiers_cases env (collect_building_vertices env model))
          as [[Hc E] | [(Hc & Hsc & h & Hp & E) | (Hc & b & Hbb & E)]];
          [exact Hc | rewrite E in H; discriminate H | rewrite E in H; discriminate H].
      * cbn [andb] in H.
        destruct (Py.gt (fold_left PrimFloat.add (q :: qs) 0%float) 0) eqn:Hp;
          cbn [and_then] in H; [discriminate H|].
        split; [auto|].
        destruct (envelope_tiers_cases env (collect_building_vertices env model))
          as [[Hc E] | [(Hc & Hsc & h & Hp' & E) | (Hc & b & Hbb & E)]];
          [exact Hc | rewrite E in H; discriminate H | rewrite E in H; discriminate H].
    + rewrite Hb. cbn [and_then]. intros H. inversion H; subst.
      apply building_tag in Hb. discriminate Hb.
  - intros (Hb & Hs & Hc).
    rewrite (buildings_absent _ _ Hb), storeys_loop_spec, Hc. cbn [and_then attempt orb].
    destruct Hs as [Hs | Hs]; rewrite Hs; [reflexivity|].
    rewrite andb_false_r. reflexivity.
Qed.

Lemma no_data_no_gross_volume_witness :
  storey_values Sample.bare (by_type Sample.zero_storey "IfcBuildingStorey") = [0%float]
  /\ collect_building_vertices Sample.bare Sample.zero_storey = []
  /\ compute_gross_volume Sample.bare Sample.zero_storey = Returns (0%float, "None").
Proof.
  split; [reflexivity|]. split; [reflexivity|].
  apply (proj2 (no_data_no_gross_volume Sample.bare Sample.zero_storey)).
  split; [repeat constructor|]. split; [right; reflexivity | reflexivity].
Defined.

(** ** The report files *)

(** X18: from the opened model on, a run first opens the summary file and
    writes a header and one record, of six fields each, the last of which
    counts the spaces of the model.  For a model with [n] spaces, [n] not
    0, it then opens the spaces file and writes a header and [n] rows, of
    five fields each; the count of the summary is the number of these
    rows.  A file that cannot be opened ends the run with an exception:
    nothing is written when it is the summary file, and with every file
    opened the run comes to its end. *)
Theorem report_tables_shape env now ifc output model :
  let n := List.length (by_type model "IfcSpace") in
  exists summary rest header record,
    main env now ifc output model = write_files env (summary :: rest)
    /\ path summary = summary_file output
    /\ table summary = [header; record]
    /\ List.length header = 6%nat /\ List.length record = 6%nat
    /\ nth_error record 5 = Some (CInt n)
    /\ match n with
       | O => rest = []
       | S _ => exists spaces,
                  rest = [spaces]
                  /\ path spaces = spaces_file output
                  /\ List.length (table spaces) = S n
                  /\ Forall (fun r => List.length r = 5%nat) (table spaces)
       end
    /\ (can_open env (summary_file output) = false ->
        main env now ifc output model = Raised [])
    /\ (forallb (fun w => can_open env (path w)) (summary :: rest) = true ->
        main env now ifc output model = Done (summary :: rest)).
Proof.
  intros n.
  destruct (main_tables env now ifc output model) as (gross & method & _ & Hm).
  do 4 eexists. split; [exact Hm|].
  split; [reflexivity|]. split; [reflexivity|].
  split; [reflexivity|]. split; [reflexivity|].
  split; [cbn; now rewrite length_map|].
  split; [|split].
  - subst n. destruct (by_type model "IfcSpace") as [|sp sps]; [reflexivity|].
    cbn [map List.length]. eexists. split; [reflexivity|].
    split; [reflexivity|]. split.
    + cbn. now rewrite !length_map.
    + cbn [table]. constructor; [reflexivity|].
      apply Forall_forall. intros r Hr.
      change (row_cells (row_of env sp) :: map row_cells (map (row_of env) sps))
        with (map row_cells (row_of env sp :: map (row_of env) sps)) in Hr.
      apply in_map_iff in Hr. destruct Hr as (x & <- & _). reflexivity.
  - intros H. rewrite Hm. cbn [write_files path]. now rewrite H.
  - intros H. rewrite Hm. now apply write_files_done.
Qed.

Lemma report_tables_shape_witness :
  can_open Cases.no_directories (summary_file "x.csv/r.csv") = false
  /\ summary_file "x.csv/r.csv" = "x_summary.csv/r_summary.csv"
  /\ main Cases.no_directories "2024-05-01 10:00" "a.ifc" "x.csv/r.csv" Sample.mixed_spaces
     = Raised [].
Proof.
  split; [reflexivity|]. split; [reflexivity|].
  destruct (report_tables_shape Cases.no_directories "2024-05-01 10:00" "a.ifc"
              "x.csv/r.csv" Sample.mixed_spaces)
    as (summary & rest & header & record & _ & _ & _ & _ & _ & _ & _ & Hf & _).
  apply Hf. reflexivity.
Defined.

Lemma append_empty s : (s ++ EmptyString)%string = s.
Proof. induction s as [|c r IH]; simpl; [reflexivity | now rewrite IH]. Qed.

Lemma replace_from_absent old new s :
  occurs old s = false -> Py.replace_from old new 0 s = s.
Proof.
  induction s as [|c r IH]; [reflexivity|].
  cbn [occurs]. intros H. apply orb_false_iff in H. destruct H as [Hp Hr].
  cbn [Py.replace_from]. rewrite Hp. now rewrite (IH Hr).
Qed.

Lemma prefix_cons a s1 b s2 :
  String.prefix (String a s1) (String b s2) = (Ascii.eqb a b && String.prefix s1 s2)%bool.
Proof.
  cbn [String.prefix]. destruct (ascii_dec a b) as [E | E].
  - subst. now rewrite Ascii.eqb_refl.
  - apply Ascii.eqb_neq in E. now rewrite E.
Qed.

Lemma prefix_empty a s1 : String.prefix (String a s1) EmptyString = false.
Proof. reflexivity. Qed.

Lemma prefix_of_empty s : String.prefix EmptyString s = true.
Proof. destruct s; reflexivity. Qed.

Ltac split_chars :=
  repeat match goal with
         | |- context [Ascii.eqb ?a ?b] => destruct (Ascii.eqb_spec a b); subst
         end.

(** A match of [.csv] that starts in the stem would end in the stem. *)
Lemma prefix_csv_stem c r :
  String.prefix ".csv" (String c r) = false ->
  String.prefix ".csv" (String c r ++ ".csv") = false.
Proof.
  destruct r as [|c1 [|c2 [|c3 r3]]]; cbn [append];
    rewrite ?prefix_cons, ?prefix_empty, ?prefix_of_empty;
    split_chars; cbn [andb]; intros; try reflexivity; try discriminate; congruence.
Qed.

Lemma replace_csv_stem new stem :
  occurs ".csv" stem = false ->
  Py.replace (stem ++ ".csv") ".csv" new = (stem ++ new)%string.
Proof.
  unfold Py.replace. induction stem as [|c r IH]; intros H.
  - cbn. now rewrite append_empty.
  - cbn [occurs] in H. apply orb_false_iff in H. destruct H as [Hp Hr].
    change (String c r ++ ".csv")%string with (String c (r ++ ".csv")).
    cbn [Py.replace_from].
    change (String c (r ++ ".csv")) with (String c r ++ ".csv")%string.
    rewrite (prefix_csv_stem c r Hp).
    cbn [append]. now rewrite (IH Hr).
Qed.

Lemma append_injective stem a b : (stem ++ a)%string = (stem ++ b)%string -> a = b.
Proof.
  induction stem as [|c r IH]; cbn; intros H; [exact H|].
  injection H as H. now apply IH.
Qed.

Lemma file_names_without_csv output :
  occurs ".csv" output = false ->
  summary_file output = output /\ spaces_file output = output.
Proof.
  intros H. unfold summary_file, spaces_file, Py.replace.
  now rewrite !(replace_from_absent _ _ output H).
Qed.

(** X19: for an output name that ends in [.csv] and has no [.csv] before,
    the summary goes to the name with [_summary] and the per-space table
    to the name with [_spaces] before the extension, two different
    files; for an output name without [.csv] both go to the output name
    itself. *)
Theorem output_file_names :
  (forall stem, occurs ".csv" stem = false ->
                summary_file (stem ++ ".csv") = (stem ++ "_summary.csv")%string
                /\ spaces_file (stem ++ ".csv") = (stem ++ "_spaces.csv")%string
                /\ summary_file (stem ++ ".csv") <> spaces_file (stem ++ ".csv"))
  /\ (forall output, occurs ".csv" output = false ->
                     summary_file output = output /\ spaces_file output = output).
Proof.
  split; [|exact file_names_without_csv].
  intros stem H. unfold summary_file, spaces_file.
  rewrite !(replace_csv_stem _ stem H).
  split; [reflexivity|]. split; [reflexivity|].
  intros E. apply append_injective in E. discriminate E.
Qed.

Lemma output_file_names_witness :
  (occurs ".csv" "nen2580_inhoud_resultaten" = false
   /\ summary_file "nen2580_inhoud_resultaten.csv" = "nen2580_inhoud_resultaten_summary.csv"
   /\ spaces_file "nen2580_inhoud_resultaten.csv" = "nen2580_inhoud_resultaten_spaces.csv")
  /\ (occurs ".csv" "results/r.xlsx" = false
      /\ summary_file "results/r.xlsx" = "results/r.xlsx").
Proof.
  destruct output_file_names as [Hcsv Hother].
  split.
  - split; [reflexivity|].
    destruct (Hcsv "nen2580_inhoud_resultaten" eq_refl) as (H1 & H2 & _).
    split; [exact H1 | exact H2].
  - split; [reflexivity|].
    exact (proj1 (Hother "results/r.xlsx" eq_refl)).
Defined.

(** ** The script behind the web application *)

Lemma occurs_no_dot unique_id tail :
  has_char "." unique_id = false ->
  occurs ".csv" (unique_id ++ tail) = occurs ".csv" tail.
Proof.
  induction unique_id as [|c r IH]; [reflexivity|].
  cbn [has_char]. intros H. apply orb_false_iff in H. destruct H as [Hc Hr].
  cbn [append occurs]. rewrite prefix_cons, Ascii.eqb_sym, Hc. cbn [andb orb].
  now apply IH.
Qed.

Lemma result_path_has_no_csv unique_id :
  has_char "." unique_id = false -> occurs ".csv" (App.result_path unique_id) = false.
Proof.
  intros H. unfold App.result_path, App.result_filename.
  cbn [append occurs]. rewrite !prefix_cons. cbn [Ascii.eqb Bool.eqb andb orb].
  now rewrite (occurs_no_dot unique_id "_result.xlsx" H).
Qed.

Lemma prefix_append s t : String.prefix s (s ++ t) = true.
Proof.
  induction s as [|c r IH]; [apply prefix_of_empty|].
  cbn [append]. now rewrite prefix_cons, Ascii.eqb_refl, IH.
Qed.

Lemma length_append s t :
  String.length (s ++ t) = (String.length s + String.length t)%nat.
Proof. induction s as [|c r IH]; cbn; [reflexivity | now rewrite IH]. Qed.

Lemma substring_append s t n m :
  String.substring (String.length s + n) m (s ++ t) = String.substring n m t.
Proof. induction s as [|c r IH]; [reflexivity | exact IH]. Qed.

Lemma result_filename_is_found unique_id :
  (String.prefix unique_id (App.result_filename unique_id)
   && App.endswith (App.result_filename unique_id) ".xlsx")%bool = true.
Proof.
  unfold App.result_filename, App.endswith.
  rewrite prefix_append, length_append. cbn [andb].
  change (String.length "_result.xlsx") with 12%nat.
  change (String.length ".xlsx") with 5%nat.
  replace (String.length unique_id + 12 - 5)%nat with (String.length unique_id + 7)%nat
    by lia.
  rewrite substring_append.
  replace (Nat.leb 5 (String.length unique_id + 12)) with true
    by (symmetry; apply Nat.leb_le; lia).
  reflexivity.
Qed.

(** X20: a run started by the web application gets the output name
    [results/<id>_result.xlsx], which holds no [.csv]: the summary and
    the per-space table are written to that one name, one after the
    other (or nothing is written, when that name cannot be opened), so
    that for a model with spaces the file holds the per-space table
    alone, and the summary is lost.  It is the file whose name the
    progress poll looks for. *)
Theorem web_run_leaves_the_spaces_table env now ifc model unique_id :
  has_char "." unique_id = false ->
  by_type model "IfcSpace" <> [] ->
  exists summary spaces,
    main env now ifc (App.result_path unique_id) model
    = (if can_open env (App.result_path unique_id)
       then Done [summary; spaces] else Raised [])
    /\ path summary = App.result_path unique_id
    /\ path spaces = App.result_path unique_id
    /\ table spaces
       = map CStr spaces_fieldnames
         :: map row_cells (map (row_of env) (by_type model "IfcSpace"))
    /\ table summary <> table spaces
    /\ final_table [summary; spaces] (App.result_path unique_id) = Some (table spaces)
    /\ App.find_result unique_id [App.result_filename unique_id]
       = Some (App.result_filename unique_id).
Proof.
  intros Hid Hsp.
  destruct (main_tables env now ifc (App.result_path unique_id) model)
    as (gross & method & _ & Hm).
  destruct (file_names_without_csv (App.result_path unique_id)
              (result_path_has_no_csv unique_id Hid)) as [Hsum Hspa].
  destruct (by_type model "IfcSpace") as [|sp sps] eqn:E; [contradiction|].
  cbn [map] in Hm.
  rewrite Hsum, Hspa in Hm.
  do 2 eexists. split.
  { rewrite Hm. cbn [write_files path].
    destruct (can_open env (App.result_path unique_id)); reflexivity. }
  split; [reflexivity|]. split; [reflexivity|]. split; [reflexivity|].
  split; [|split].
  - cbn [table]. intros H.
    apply (f_equal (fun t => option_map (@List.length Cell) (hd_error t))) in H.
    cbn in H. discriminate H.
  - unfold final_table. cbn [fold_left path table].
    now rewrite String.eqb_refl.
  - unfold App.find_result. cbn [find].
    now rewrite result_filename_is_found.
Qed.

Lemma web_run_leaves_the_spaces_table_witness :
  has_char "." "3f2b8c1e-7d4a-4e0b-9c55-0a1b2c3d4e5f" = false
  /\ by_type Sample.mixed_spaces "IfcSpace" <> []
  /\ exists summary spaces,
       main Sample.with_geom "2024-05-01 10:00"
            (App.upload_path "3f2b8c1e-7d4a-4e0b-9c55-0a1b2c3d4e5f" "a.ifc")
            (App.result_path "3f2b8c1e-7d4a-4e0b-9c55-0a1b2c3d4e5f")
            Sample.mixed_spaces
       = Done [summary; spaces]
       /\ path summary = "results/3f2b8c1e-7d4a-4e0b-9c55-0a1b2c3d4e5f_result.xlsx"
       /\ path spaces = "results/3f2b8c1e-7d4a-4e0b-9c55-0a1b2c3d4e5f_result.xlsx".
Proof.
  assert (Hid : has_char "." "3f2b8c1e-7d4a-4e0b-9c55-0a1b2c3d4e5f" = false)
    by reflexivity.
  assert (Hsp : by_type Sample.mixed_spaces "IfcSpace" <> []) by discriminate.
  split; [exact Hid|]. split; [exact Hsp|].
  destruct (web_run_leaves_the_spaces_table Sample.with_geom "2024-05-01 10:00"
              (App.upload_path "3f2b8c1e-7d4a-4e0b-9c55-0a1b2c3d4e5f" "a.ifc")
              Sample.mixed_spaces "3f2b8c1e-7d4a-4e0b-9c55-0a1b2c3d4e5f" Hid Hsp)
    as (summary & spaces & Hm & H1 & H2 & _).
  exists summary, spaces. split; [exact Hm|]. split; [exact H1 | exact H2].
Defined.

(** ** allowed_file *)

Lemma has_char_append c s t :
  has_char c (s ++ t) = (has_char c s || has_char c t)%bool.
Proof.
  induction s as [|d r IH]; [reflexivity|].
  cbn. now rewrite IH, orb_assoc.
Qed.

Lemma after_last_dot_split s :
  has_char "." s = true ->
  exists base, s = (base ++ "." ++ App.after_last_dot s)%string
               /\ has_char "." (App.after_last_dot s) = false.
Proof.
  induction s as [|c r IH]; [discriminate|].
  cbn [has_char App.after_last_dot]. intros H.
  destruct (has_char "." r) eqn:Hr.
  - destruct (IH eq_refl) as (base & Hb & Hn).
    exists (String c base). split; [|exact Hn].
    change (String c r = String c (base ++ "." ++ App.after_last_dot r)).
    f_equal. exact Hb.
  - rewrite orb_false_r in H. rewrite H. apply Ascii.eqb_eq in H. subst c.
    exists EmptyString. split; [reflexivity | exact Hr].
Qed.

Lemma after_last_dot_append base ext :
  has_char "." ext = false ->
  App.after_last_dot (base ++ "." ++ ext) = ext.
Proof.
  intros He. induction base as [|c b IH].
  - cbn [append App.after_last_dot]. now rewrite He, Ascii.eqb_refl.
  - cbn [append App.after_last_dot].
    assert (H : has_char "." (b ++ String "." ext) = true).
    { rewrite has_char_append. cbn [has_char]. rewrite Ascii.eqb_refl.
      cbn [orb]. apply orb_true_r. }
    cbn [append] in IH. now rewrite H.
Qed.

(** X21: an upload is accepted exactly when its name has a dot and what
    follows the last dot is [ifc] in any mix of upper and lower case;
    only the last extension counts, and a name without a dot is
    refused. *)
Theorem allowed_file_means_ifc_extension filename :
  App.allowed_file filename = true
  <-> exists base ext,
        filename = (base ++ "." ++ ext)%string
        /\ has_char "." ext = false
        /\ Py.lower ext = "ifc".
Proof.
  unfold App.allowed_file, App.ALLOWED_EXTENSIONS, Py.str_in. cbn [existsb].
  rewrite orb_false_r. split.
  - intros H. apply andb_true_iff in H. destruct H as [Hd He].
    destruct (after_last_dot_split filename Hd) as (base & Hb & Hn).
    exists base, (App.after_last_dot filename).
    split; [exact Hb|]. split; [exact Hn|]. now apply String.eqb_eq.
  - intros (base & ext & -> & Hn & He).
    rewrite after_last_dot_append by exact Hn.
    rewrite He, has_char_append. cbn [append has_char].
    rewrite Ascii.eqb_refl. cbn [orb]. now rewrite orb_true_r.
Qed.

Lemma allowed_file_means_ifc_extension_witness :
  App.allowed_file "Kantoor v2.IFC" = true
  /\ App.allowed_file "model.ifc.exe" = false
  /\ App.allowed_file "ifc" = false.
Proof.
  split; [|split; reflexivity].
  apply (proj2 (allowed_file_means_ifc_extension "Kantoor v2.IFC")).
  exists "Kantoor v2", "IFC". repeat split; reflexivity.
Defined.
